(** * termplay: the room document protocol of the SSH tic-tac-toe server

    A shallow embedding of the Go sources

    - [internal/db/firebase.go]  (package [db]: the room store adapter),
    - the [package ui] update loop (the key handler [updateGame]),
    - the single-file [package main] server ([checkWinner], [checkDraw],
      [triggerRematchCmd], ...), kept here in [Module legacy],

    followed by the properties of the room protocol proved about them.

    Modelling conventions.

    - A Go [string] is a [string] (a byte sequence); [==] is [String.eqb]
      and [<] is the bytewise lexicographic [String.ltb].
    - A Go [int] is a [Z]; the counters involved never get near 2^63.
    - The array type [[9]string] is [vec string 9]; an [int] index is turned
      into a [fin 9] by [fin9_of_Z], and an index outside [0..8] is the Go
      run-time panic ([Panicked]).
    - A value of type [interface{}] is an [iface]; a [float64] is a
      [spec_float].
    - The remote store is a finite map from room codes to documents.  A
      document is kept in the shape [rawRoom] gives it when it is read.
      [ref.Get] on a missing path decodes JSON [null], which leaves the Go
      zero value in place.  Transport failures of the store are not
      modelled.
    - A transaction applies its body to the current document and writes the
      result back, or writes nothing when the body returns an error. *)

From Stdlib Require Import ZArith String Ascii List Lia Permutation.
From Stdlib Require Import Sorting.Sorted Floats.SpecFloat.
From stdpp Require Import base option list vector gmap strings pretty sorting.

Open Scope string_scope.

(** ** Errors, results and panics *)

Inductive error : Type :=
| Errorf (msg : string)        (* fmt.Errorf(msg) *)
| UnmarshalTypeError.          (* encoding/json: a value of the wrong type *)

(** A Go result [(T, error)]. *)
Inductive result (A : Type) : Type :=
| Ok (a : A)
| Err (e : error).

Arguments Ok {A} a.
Arguments Err {A} e.

Global Instance result_ret : MRet result := fun A a => Ok a.

Global Instance result_bind : MBind result := fun A B k m =>
  match m with
  | Ok a => k a
  | Err e => Err e
  end.

(** A computation that may end in a run-time panic (index out of range). *)
Inductive run (A : Type) : Type :=
| Done (a : A)
| Panicked.

Arguments Done {A} a.
Arguments Panicked {A}.

Global Instance run_ret : MRet run := fun A a => Done a.

Global Instance run_bind : MBind run := fun A B k m =>
  match m with
  | Done a => k a
  | Panicked => Panicked
  end.

(** ** Indices into a [[9]string] *)

Definition fin9_of_nat (i : nat) : option (fin 9) :=
  match i with
  | 0 => Some 0%fin | 1 => Some 1%fin | 2 => Some 2%fin
  | 3 => Some 3%fin | 4 => Some 4%fin | 5 => Some 5%fin
  | 6 => Some 6%fin | 7 => Some 7%fin | 8 => Some 8%fin
  | _ => None
  end.

Definition fin9_of_Z (i : Z) : option (fin 9) :=
  if (i <? 0)%Z then None else fin9_of_nat (Z.to_nat i).

(** [board[i]] and [board[i] = v] for an [int] index. *)
Definition board_get (b : vec string 9) (i : Z) : run string :=
  match fin9_of_Z i with
  | Some k => Done (b !!! k)
  | None => Panicked
  end.

Definition board_set (b : vec string 9) (i : Z) (v : string) : run (vec string 9) :=
  match fin9_of_Z i with
  | Some k => Done (vinsert k v b)
  | None => Panicked
  end.

(** The literal [[9]string{" ", " ", " ", " ", " ", " ", " ", " ", " "}]. *)
Definition emptyBoard : vec string 9 :=
  [# " "; " "; " "; " "; " "; " "; " "; " "; " "].

(** ** Dynamic values and their formatting *)

Inductive iface : Type :=
| VString (s : string)
| VFloat64 (f : spec_float)
| VInt (n : Z)
| VBool (b : bool)
| VNil
| VComposite.                  (* map[string]interface{} or []interface{} *)

(** Nearest integer to [m * 2^e], ties to even. *)
Definition round_half_even (m : positive) (e : Z) : Z :=
  if (0 <=? e)%Z then Z.shiftl (Z.pos m) e
  else
    let k := (- e)%Z in
    let q := Z.shiftr (Z.pos m) k in
    let r := Z.land (Z.pos m) (Z.ones k) in
    let half := Z.shiftl 1 (k - 1) in
    if (half <? r)%Z then (q + 1)%Z
    else if (r =? half)%Z && Z.odd q then (q + 1)%Z
    else q.

(** [fmt.Sprintf("%.0f", v)] *)
Definition Sprintf_0f (v : spec_float) : string :=
  match v with
  | S754_nan => "NaN"
  | S754_infinity false => "+Inf"
  | S754_infinity true => "-Inf"
  | S754_zero false => "0"
  | S754_zero true => "-0"
  | S754_finite s m e =>
      (if s then "-" else "") +:+ pretty (round_half_even m e)
  end.

(** [fmt.Sprintf("%d", v)] *)
Definition Sprintf_d (v : Z) : string := pretty v.

(** ** Package [sort] *)

Module sort.

(** [sort.Slice(list, less)], as an insertion sort.  The order used by
    [db.GetPublicRooms] is strict and total on the room codes, which are
    pairwise different, so that every sorting algorithm returns this same
    list: a strictly sorted permutation of a list is unique. *)
Fixpoint insert {A : Type} (less : A -> A -> bool) (x : A) (l : list A) : list A :=
  match l with
  | [] => [x]
  | y :: l' => if less x y then x :: y :: l' else y :: insert less x l'
  end.

Fixpoint Slice {A : Type} (less : A -> A -> bool) (l : list A) : list A :=
  match l with
  | [] => []
  | x :: l' => insert less x (Slice less l')
  end.

End sort.

(** ** Package [game] *)

Module game.

(** Modelled from the spec: the package [internal/game] that
    [db.UpdateMove] calls is not among the sources.  The eight winning
    triples, in the scan order the spec fixes: rows top-to-bottom, then
    columns left-to-right, then the two diagonals. *)
Definition lines : list (fin 9 * fin 9 * fin 9) :=
  [ (0, 1, 2); (3, 4, 5); (6, 7, 8);
    (0, 3, 6); (1, 4, 7); (2, 5, 8);
    (0, 4, 8); (2, 4, 6) ]%fin.

Definition line_indices (w : fin 9 * fin 9 * fin 9) : list Z :=
  let '(i, j, k) := w in
  [Z.of_nat (fin_to_nat i); Z.of_nat (fin_to_nat j); Z.of_nat (fin_to_nat k)].

Definition filled (b : vec string 9) (w : fin 9 * fin 9 * fin 9) : bool :=
  let '(i, j, k) := w in
  negb (b !!! i =? " ") && (b !!! i =? b !!! j) && (b !!! j =? b !!! k).

(** Modelled from the spec: [detectOutcome], the winner and line part.
    The first triple in scan order whose cells hold the same mark gives
    the winner and the winning line; otherwise there is no winner and the
    line is empty. *)
Definition CheckWinner (b : vec string 9) : string * list Z :=
  match List.find (filled b) lines with
  | Some w => (b !!! w.1.1, line_indices w)
  | None => ("", [])
  end.

(** Modelled from the spec: [detectOutcome], the [isDraw] part: no winner
    and no empty cell remains. *)
Definition CheckDraw (b : vec string 9) : bool :=
  ((CheckWinner b).1 =? "") &&
  forallb (fun v => negb (v =? " ")) (vec_to_list b).

End game.

(** ** Package [db]: internal/db/firebase.go *)

Module db.

(** [Room] is the clean, strict structure used by the game UI. *)
Record Room : Type := mkRoom {
  Code : string;
  Board : vec string 9;
  Turn : string;
  PlayerX : string;
  PlayerO : string;
  PlayerXName : string;
  PlayerOName : string;
  IsPublic : bool;
  Winner : string;
  WinningLine : list Z;
  Status : string;
  WinsX : Z;
  WinsO : Z
}.

(** [rawRoom] reads dirty data (mixed types) from the store. *)
Record rawRoom : Type := mkRaw {
  raw_Code : string;
  raw_Board : list iface;
  raw_Turn : string;
  raw_PlayerX : string;
  raw_PlayerO : string;
  raw_PlayerXName : string;
  raw_PlayerOName : string;
  raw_IsPublic : bool;
  raw_Winner : string;
  raw_WinningLine : list Z;
  raw_Status : string;
  raw_WinsX : Z;
  raw_WinsO : Z
}.

(** The Go zero value. *)
Definition zeroRaw : rawRoom :=
  mkRaw "" [] "" "" "" "" "" false "" [] "" 0 0.

(** Field assignments [r.F = v]. *)
Definition set_Board (v : vec string 9) (r : Room) : Room :=
  mkRoom (Code r) v (Turn r) (PlayerX r) (PlayerO r) (PlayerXName r)
    (PlayerOName r) (IsPublic r) (Winner r) (WinningLine r) (Status r)
    (WinsX r) (WinsO r).

Definition set_Turn (v : string) (r : Room) : Room :=
  mkRoom (Code r) (Board r) v (PlayerX r) (PlayerO r) (PlayerXName r)
    (PlayerOName r) (IsPublic r) (Winner r) (WinningLine r) (Status r)
    (WinsX r) (WinsO r).

Definition set_Winner (v : string) (r : Room) : Room :=
  mkRoom (Code r) (Board r) (Turn r) (PlayerX r) (PlayerO r) (PlayerXName r)
    (PlayerOName r) (IsPublic r) v (WinningLine r) (Status r)
    (WinsX r) (WinsO r).

Definition set_WinningLine (v : list Z) (r : Room) : Room :=
  mkRoom (Code r) (Board r) (Turn r) (PlayerX r) (PlayerO r) (PlayerXName r)
    (PlayerOName r) (IsPublic r) (Winner r) v (Status r)
    (WinsX r) (WinsO r).

Definition set_Status (v : string) (r : Room) : Room :=
  mkRoom (Code r) (Board r) (Turn r) (PlayerX r) (PlayerO r) (PlayerXName r)
    (PlayerOName r) (IsPublic r) (Winner r) (WinningLine r) v
    (WinsX r) (WinsO r).

Definition set_WinsX (v : Z) (r : Room) : Room :=
  mkRoom (Code r) (Board r) (Turn r) (PlayerX r) (PlayerO r) (PlayerXName r)
    (PlayerOName r) (IsPublic r) (Winner r) (WinningLine r) (Status r)
    v (WinsO r).

Definition set_WinsO (v : Z) (r : Room) : Room :=
  mkRoom (Code r) (Board r) (Turn r) (PlayerX r) (PlayerO r) (PlayerXName r)
    (PlayerOName r) (IsPublic r) (Winner r) (WinningLine r) (Status r)
    (WinsX r) v.

Definition set_raw_PlayerO (v : string) (r : rawRoom) : rawRoom :=
  mkRaw (raw_Code r) (raw_Board r) (raw_Turn r) (raw_PlayerX r) v
    (raw_PlayerXName r) (raw_PlayerOName r) (raw_IsPublic r) (raw_Winner r)
    (raw_WinningLine r) (raw_Status r) (raw_WinsX r) (raw_WinsO r).

Definition set_raw_PlayerOName (v : string) (r : rawRoom) : rawRoom :=
  mkRaw (raw_Code r) (raw_Board r) (raw_Turn r) (raw_PlayerX r) (raw_PlayerO r)
    (raw_PlayerXName r) v (raw_IsPublic r) (raw_Winner r)
    (raw_WinningLine r) (raw_Status r) (raw_WinsX r) (raw_WinsO r).

Definition set_raw_Status (v : string) (r : rawRoom) : rawRoom :=
  mkRaw (raw_Code r) (raw_Board r) (raw_Turn r) (raw_PlayerX r) (raw_PlayerO r)
    (raw_PlayerXName r) (raw_PlayerOName r) (raw_IsPublic r) (raw_Winner r)
    (raw_WinningLine r) v (raw_WinsX r) (raw_WinsO r).

(** *** The store and its JSON boundary *)

(** The collection [rooms/], keyed by room code. *)
Abbreviation store := (gmap string rawRoom).

(** [ref.Get(ctx, &raw)] at [rooms/<code>]: a missing document decodes
    JSON [null] and leaves [raw] at its zero value. *)
Definition ref_Get (st : store) (code : string) : rawRoom :=
  default zeroRaw (st !! code).

(** The document a strict [Room] is stored as ([json.Marshal]). *)
Definition marshalRoom (r : Room) : rawRoom :=
  mkRaw (Code r) (VString <$> vec_to_list (Board r)) (Turn r) (PlayerX r)
    (PlayerO r) (PlayerXName r) (PlayerOName r) (IsPublic r) (Winner r)
    (WinningLine r) (Status r) (WinsX r) (WinsO r).

(** [json.Unmarshal] of a JSON array into a [[9]string]: elements beyond
    the ninth are dropped, missing ones stay at the zero value, [null]
    leaves the element as it is, a string is stored, and anything else is
    a type error. *)
Fixpoint unmarshalBoard (i : nat) (vals : list iface) (board : vec string 9)
  : result (vec string 9) :=
  match vals with
  | [] => Ok board
  | val :: rest =>
      match fin9_of_nat i with
      | None => Ok board
      | Some k =>
          match val with
          | VString s => unmarshalBoard (S i) rest (vinsert k s board)
          | VNil => unmarshalBoard (S i) rest board
          | _ => Err UnmarshalTypeError
          end
      end
  end.

(** [tn.Unmarshal(&r)] for a strict [Room]. *)
Definition unmarshalRoom (tn : rawRoom) : result Room :=
  board ← unmarshalBoard 0 (raw_Board tn) (vreplicate 9 "");
  Ok (mkRoom (raw_Code tn) board (raw_Turn tn) (raw_PlayerX tn)
        (raw_PlayerO tn) (raw_PlayerXName tn) (raw_PlayerOName tn)
        (raw_IsPublic tn) (raw_Winner tn) (raw_WinningLine tn)
        (raw_Status tn) (raw_WinsX tn) (raw_WinsO tn)).

(** [ref.Transaction(ctx, fn)]: [fn] runs on the current document; its
    value is written back, and an error aborts without a write. *)
Definition Transaction (fn : rawRoom -> result rawRoom)
    (code : string) (st : store) : option error * store :=
  match fn (ref_Get st code) with
  | Ok doc => (None, <[code := doc]> st)
  | Err e => (Some e, st)
  end.

(** *** The operations *)

(** The type switch of [sanitizeRoom] on one board entry. *)
Definition sanitizeCell (val : iface) : string :=
  match val with
  | VString v => v
  | VFloat64 v => Sprintf_0f v
  | VInt v => Sprintf_d v
  | _ => " "
  end.

(** [for i, val := range raw.Board { if i >= 9 { break }; ... }] *)
Fixpoint sanitizeBoard (i : nat) (vals : list iface) (board : vec string 9)
  : vec string 9 :=
  match vals with
  | [] => board
  | val :: rest =>
      match fin9_of_nat i with
      | None => board
      | Some k => sanitizeBoard (S i) rest (vinsert k (sanitizeCell val) board)
      end
  end.

(** Helper to convert raw data to a clean [Room]. *)
Definition sanitizeRoom (code : string) (raw : rawRoom) : Room :=
  let clean :=
    mkRoom code emptyBoard (raw_Turn raw) (raw_PlayerX raw) (raw_PlayerO raw)
      (raw_PlayerXName raw) (raw_PlayerOName raw) (raw_IsPublic raw)
      (raw_Winner raw) (raw_WinningLine raw) (raw_Status raw)
      (raw_WinsX raw) (raw_WinsO raw) in
  let clean :=
    if Code clean =? "" then
      mkRoom code (Board clean) (Turn clean) (PlayerX clean) (PlayerO clean)
        (PlayerXName clean) (PlayerOName clean) (IsPublic clean)
        (Winner clean) (WinningLine clean) (Status clean)
        (WinsX clean) (WinsO clean)
    else clean in
  set_Board (sanitizeBoard 0 (raw_Board raw) emptyBoard) clean.

Definition CreateRoom (code pid name : string) (public : bool) (st : store)
  : option error * store :=
  let r := mkRoom code emptyBoard "X" pid "" name "" public "" [] "waiting" 0 0 in
  (None, <[code := marshalRoom r]> st).

Definition GetRoom (code : string) (st : store) : result Room :=
  let raw := ref_Get st code in
  if raw_PlayerX raw =? "" then Err (Errorf "room does not exist")
  else Ok (sanitizeRoom code raw).

(** The transaction body of [JoinRoom]. *)
Definition JoinRoom_fn (pid name : string) (tn : rawRoom) : result rawRoom :=
  let raw := tn in
  if raw_PlayerX raw =? "" then Err (Errorf "room not found")
  else if negb (raw_PlayerO raw =? "") && negb (raw_PlayerO raw =? pid)
  then Err (Errorf "room is full")
  else
    let raw := set_raw_PlayerO pid raw in
    let raw := set_raw_PlayerOName name raw in
    let raw := set_raw_Status "playing" raw in
    Ok raw.

Definition JoinRoom (code pid name : string) (st : store) : option error * store :=
  Transaction (JoinRoom_fn pid name) code st.

(** [ref.Update] merges the named fields into the document. *)
Definition LeaveRoom (code pid : string) (isHost : bool) (st : store)
  : option error * store :=
  if isHost then (None, delete code st)
  else
    (None, <[code := set_raw_Status "waiting"
                       (set_raw_PlayerO "" (ref_Get st code))]> st).

(** The game logic of [UpdateMove], up to the write. *)
Definition UpdateMove_logic (idx : Z) (r : Room) : run Room :=
  board ← board_set (Board r) idx (Turn r);
  let r := set_Board board r in
  let '(winner, line) := game.CheckWinner (Board r) in
  if negb (winner =? "") then
    let r := set_Winner winner r in
    let r := set_WinningLine line r in
    let r := set_Status "finished" r in
    if winner =? "X" then Done (set_WinsX (WinsX r + 1) r)
    else Done (set_WinsO (WinsO r + 1) r)
  else if game.CheckDraw (Board r) then
    Done (set_Status "finished" r)
  else
    if Turn r =? "X" then Done (set_Turn "O" r) else Done (set_Turn "X" r).

Definition UpdateMove (code pid : string) (idx : Z) (r : Room) (st : store)
  : run (option error * store) :=
  r' ← UpdateMove_logic idx r;
  Done (None, <[code := marshalRoom r']> st).

(** The five assignments in the transaction body of [RestartGame]. *)
Definition RestartGame_reset (r : Room) : Room :=
  let r := set_Board emptyBoard r in
  let r := set_Winner "" r in
  let r := set_WinningLine [] r in
  let r := set_Status "playing" r in
  let r := set_Turn "X" r in
  r.

(** The transaction body of [RestartGame]. *)
Definition RestartGame_fn (tn : rawRoom) : result rawRoom :=
  r ← unmarshalRoom tn;
  Ok (marshalRoom (RestartGame_reset r)).

Definition RestartGame (code : string) (st : store) : option error * store :=
  Transaction RestartGame_fn code st.

(** [for code, raw := range rawMap], over the entries in the order the
    iteration happens to visit them. *)
Fixpoint publicRooms_range (entries : list (string * rawRoom)) (rooms : list Room)
  : list Room :=
  match entries with
  | [] => rooms
  | (code, raw) :: rest =>
      publicRooms_range rest
        (if raw_IsPublic raw then rooms ++ [sanitizeRoom code raw] else rooms)
  end.

Definition code_less (a b : Room) : bool := (Code a <? Code b)%string.

Definition GetPublicRooms_in (entries : list (string * rawRoom)) : list Room :=
  sort.Slice code_less (publicRooms_range entries []).

Definition GetPublicRooms (st : store) : list Room :=
  GetPublicRooms_in (map_to_list st).

End db.

(** ** Package [ui]: the game screen of the update loop *)

Module ui.

Inductive SessionState : Type :=
| StateNameInput | StateMenu | StatePublicList | StateCreateConfig
| StateInputCode | StateLobby | StateGame.

Definition SessionState_eqb (a b : SessionState) : bool :=
  match a, b with
  | StateNameInput, StateNameInput | StateMenu, StateMenu
  | StatePublicList, StatePublicList | StateCreateConfig, StateCreateConfig
  | StateInputCode, StateInputCode | StateLobby, StateLobby
  | StateGame, StateGame => true
  | _, _ => false
  end.

(** The fields of [Model] that [updateGame] reads or writes; the terminal
    size, the text inputs and the menu and list cursors are left out. *)
Record Model : Type := mkModel {
  SessionID : string;
  Err : option error;
  State : SessionState;
  PopupActive : bool;
  MySide : string;
  RoomCode : string;
  CursorR : Z;
  CursorC : Z;
  Game : db.Room
}.

Inductive Msg : Type :=
| roomUpdateMsg (r : db.Room)
| KeyMsg (key : string)
| otherMsg.

(** The commands [updateGame] returns: [nil], [pollCmd(code)], and the two
    closures that call [db.RestartGame] and [db.UpdateMove]. *)
Inductive Cmd : Type :=
| nilCmd
| pollCmd (code : string)
| restartCmd (code : string)
| moveCmd (code pid : string) (idx : Z) (r : db.Room).

Definition set_Err (v : option error) (m : Model) : Model :=
  mkModel (SessionID m) v (State m) (PopupActive m) (MySide m) (RoomCode m)
    (CursorR m) (CursorC m) (Game m).

Definition set_State (v : SessionState) (m : Model) : Model :=
  mkModel (SessionID m) (Err m) v (PopupActive m) (MySide m) (RoomCode m)
    (CursorR m) (CursorC m) (Game m).

Definition set_PopupActive (v : bool) (m : Model) : Model :=
  mkModel (SessionID m) (Err m) (State m) v (MySide m) (RoomCode m)
    (CursorR m) (CursorC m) (Game m).

Definition set_RoomCode (v : string) (m : Model) : Model :=
  mkModel (SessionID m) (Err m) (State m) (PopupActive m) (MySide m) v
    (CursorR m) (CursorC m) (Game m).

Definition set_CursorR (v : Z) (m : Model) : Model :=
  mkModel (SessionID m) (Err m) (State m) (PopupActive m) (MySide m)
    (RoomCode m) v (CursorC m) (Game m).

Definition set_CursorC (v : Z) (m : Model) : Model :=
  mkModel (SessionID m) (Err m) (State m) (PopupActive m) (MySide m)
    (RoomCode m) (CursorR m) v (Game m).

Definition set_Game (v : db.Room) (m : Model) : Model :=
  mkModel (SessionID m) (Err m) (State m) (PopupActive m) (MySide m)
    (RoomCode m) (CursorR m) (CursorC m) v.

Definition key_in (key : string) (keys : list string) : bool :=
  existsb (String.eqb key) keys.

Definition updateGame (m : Model) (msg : Msg) : run (Model * Cmd) :=
  match msg with
  | roomUpdateMsg r =>
      let m := set_Game r m in
      let m :=
        if SessionState_eqb (State m) StateLobby
           && negb (db.PlayerO (Game m) =? "")
        then set_State StateGame m else m in
      if db.PlayerX (Game m) =? "" then
        let m := set_Err None m in
        let m := set_State StateMenu m in
        let m := set_RoomCode "" m in
        Done (m, nilCmd)
      else Done (m, pollCmd (RoomCode m))
  | KeyMsg key =>
      if (key =? "q") || (key =? "esc") then
        Done (set_PopupActive true m, nilCmd)
      else if db.Status (Game m) =? "finished" then
        if key =? "r" then Done (m, restartCmd (RoomCode m))
        else Done (m, nilCmd)
      else if db.Status (Game m) =? "waiting" then Done (m, nilCmd)
      else if key_in key ["up"; "k"] then
        Done (if (CursorR m >? 0)%Z then set_CursorR (CursorR m - 1) m else m,
              nilCmd)
      else if key_in key ["down"; "j"] then
        Done (if (CursorR m <? 2)%Z then set_CursorR (CursorR m + 1) m else m,
              nilCmd)
      else if key_in key ["left"; "h"] then
        Done (if (CursorC m >? 0)%Z then set_CursorC (CursorC m - 1) m else m,
              nilCmd)
      else if key_in key ["right"; "l"] then
        Done (if (CursorC m <? 2)%Z then set_CursorC (CursorC m + 1) m else m,
              nilCmd)
      else if key_in key [" "; "enter"] then
        let idx := (CursorR m * 3 + CursorC m)%Z in
        if db.Turn (Game m) =? MySide m then
          cell ← board_get (db.Board (Game m)) idx;
          if cell =? " " then
            Done (m, moveCmd (RoomCode m) (SessionID m) idx (Game m))
          else Done (m, nilCmd)
        else Done (m, nilCmd)
      else Done (m, nilCmd)
  | otherMsg => Done (m, nilCmd)
  end.

(** What running a returned command does to the store.  The closures drop
    the error of the call; the poll only reads. *)
Definition runCmd (c : Cmd) (st : db.store) : run db.store :=
  match c with
  | nilCmd => Done st
  | pollCmd _ => Done st
  | restartCmd code => Done (db.RestartGame code st).2
  | moveCmd code pid idx r =>
      out ← db.UpdateMove code pid idx r st;
      Done out.2
  end.

End ui.

(** ** The single-file server ([package main]) *)

Module legacy.

Record RoomData : Type := mkRoomData {
  Board : vec string 9;
  Turn : string;            (* "X" or "O" *)
  PlayerX : string;
  PlayerO : string;
  PlayerXName : string;
  PlayerOName : string;
  Winner : string;
  Status : string           (* "waiting", "playing", "finished" *)
}.

Definition set_Board (v : vec string 9) (r : RoomData) : RoomData :=
  mkRoomData v (Turn r) (PlayerX r) (PlayerO r) (PlayerXName r)
    (PlayerOName r) (Winner r) (Status r).

Definition set_Turn (v : string) (r : RoomData) : RoomData :=
  mkRoomData (Board r) v (PlayerX r) (PlayerO r) (PlayerXName r)
    (PlayerOName r) (Winner r) (Status r).

Definition set_Winner (v : string) (r : RoomData) : RoomData :=
  mkRoomData (Board r) (Turn r) (PlayerX r) (PlayerO r) (PlayerXName r)
    (PlayerOName r) v (Status r).

Definition set_Status (v : string) (r : RoomData) : RoomData :=
  mkRoomData (Board r) (Turn r) (PlayerX r) (PlayerO r) (PlayerXName r)
    (PlayerOName r) (Winner r) v.

(** The rule the host's rematch menu passes to [triggerRematchCmd]. *)
Definition rematch_rule (rematchMenu : Z) : string :=
  if (rematchMenu =? 1)%Z then "random" else "winner".

(** The transaction body of [triggerRematchCmd], on the decoded document;
    [rnd] is the value [rand.Intn(2)] returns when it is called. *)
Definition triggerRematchCmd_fn (rule prevWinner : string) (rnd : Z)
    (r : RoomData) : result RoomData :=
  let r := set_Board emptyBoard r in
  let newTurn :=
    if rule =? "random" then
      if (rnd =? 0)%Z then "O" else "X"
    else if rule =? "winner" then
      if prevWinner =? "O" then "O" else "X"
    else "X" in
  let r := set_Turn newTurn r in
  let r := set_Winner "" r in
  let r := set_Status "playing" r in
  Ok r.

Definition wins : list (Z * Z * Z) :=
  [ (0, 1, 2); (3, 4, 5); (6, 7, 8);
    (0, 3, 6); (1, 4, 7); (2, 5, 8);
    (0, 4, 8); (2, 4, 6) ]%Z.

(** [b[w[0]] != " " && b[w[0]] == b[w[1]] && b[w[1]] == b[w[2]]] *)
Definition winning (b : vec string 9) (w : Z * Z * Z) : run bool :=
  let '(w0, w1, w2) := w in
  c0 ← board_get b w0;
  if negb (c0 =? " ") then
    c1 ← board_get b w1;
    if c0 =? c1 then
      c2 ← board_get b w2;
      Done (c1 =? c2)
    else Done false
  else Done false.

(** [for _, w := range wins { if ... { return b[w[0]] } }; return ""] *)
Fixpoint checkWinner_range (b : vec string 9) (ws : list (Z * Z * Z)) : run string :=
  match ws with
  | [] => Done ""
  | w :: rest =>
      hit ← winning b w;
      if (hit : bool) then board_get b (w.1.1) else checkWinner_range b rest
  end.

Definition checkWinner (b : vec string 9) : run string :=
  checkWinner_range b wins.

(** [for _, v := range b { if v == " " { return false } }; return true] *)
Fixpoint checkDraw_range (vs : list string) : bool :=
  match vs with
  | [] => true
  | v :: rest => if v =? " " then false else checkDraw_range rest
  end.

Definition checkDraw (b : vec string 9) : bool :=
  checkDraw_range (vec_to_list b).

End legacy.

(** ** Specification vocabulary and sample data *)

(** An entry the type switch of [sanitizeRoom] sends to its [default] arm. *)
Definition unparseable (val : iface) : Prop :=
  match val with
  | VString _ | VFloat64 _ | VInt _ => False
  | VBool _ | VNil | VComposite => True
  end.

(** A stored document whose board mixes strings, a number, [null], a
    boolean and a nested value, and is three entries short. *)
Definition mixedDoc : db.rawRoom :=
  db.mkRaw "AB3D"
    [VString "X"; VFloat64 (S754_finite false 3 (-1)); VNil; VBool true;
     VString "O"; VComposite]
    "X" "p1" "" "Alice" "" true "" [] "waiting" 0 0.

Definition mixedStore : db.store := {[ "AB3D" := mixedDoc ]}.

(** The room ["AB3D"] right after its creation, and after a first join. *)
Definition freshDoc : db.rawRoom :=
  db.mkRaw "AB3D" (VString <$> vec_to_list emptyBoard)
    "X" "p1" "" "Alice" "" true "" [] "waiting" 0 0.

Definition joinedDoc : db.rawRoom :=
  db.mkRaw "AB3D" (VString <$> vec_to_list emptyBoard)
    "X" "p1" "p2" "Alice" "Bob" true "" [] "playing" 0 0.

Definition freshStore : db.store := {[ "AB3D" := freshDoc ]}.
Definition joinedStore : db.store := {[ "AB3D" := joinedDoc ]}.

(** Rooms in the three statuses: waiting for an opponent, in the middle of
    a game, and finished with a win of ["O"]. *)
Definition waitingRoom : db.Room :=
  db.mkRoom "AB3D" emptyBoard "X" "p1" "" "Alice" "" true "" [] "waiting" 2 1.

Definition midGameRoom : db.Room :=
  db.mkRoom "AB3D" [# "O"; "X"; " "; " "; "X"; " "; " "; " "; " "]
    "O" "p1" "p2" "Alice" "Bob" true "" [] "playing" 2 1.

Definition finishedRoom : db.Room :=
  db.mkRoom "AB3D" [# "X"; "X"; " "; "O"; "O"; "O"; "X"; " "; " "]
    "O" "p1" "p2" "Alice" "Bob" true "O" [3; 4; 5]%Z "finished" 2 2.

(** [finishedRoom] after [RestartGame]. *)
Definition restartedRoom : db.Room :=
  db.mkRoom "AB3D" emptyBoard "X" "p1" "p2" "Alice" "Bob" true "" []
    "playing" 2 2.

(** Rooms in ascending order of their codes; the order is strict, so that a
    sorted list has no two rooms with one code. *)
Definition code_lt (a b : db.Room) : Prop := (db.Code a <? db.Code b)%string = true.

(** The public rooms of a list of store entries, in the order of the
    entries. *)
Definition public_of (entries : list (string * db.rawRoom)) : list db.Room :=
  flat_map (fun e => if db.raw_IsPublic e.2 then [db.sanitizeRoom e.1 e.2] else [])
    entries.

Definition threeRooms : db.store :=
  <["ZZ99" := joinedDoc]>
    (<["K7QP" := db.set_raw_Status "playing" freshDoc]>
       (<["AB3D" := freshDoc]>
          {[ "HIDE" := db.mkRaw "HIDE" [] "X" "p9" "" "Zed" "" false "" [] "waiting" 0 0 ]})).

(** The scan order of the winning triples: the rows top-to-bottom, then the
    columns left-to-right, then the two diagonals. *)
Definition rows : list (nat * nat * nat) :=
  (fun r => (3 * r, 3 * r + 1, 3 * r + 2)) <$> [0; 1; 2].

Definition columns : list (nat * nat * nat) :=
  (fun c => (c, c + 3, c + 6)) <$> [0; 1; 2].

Definition diagonals : list (nat * nat * nat) := [(0, 4, 8); (2, 4, 6)].

Definition scan_order : list (nat * nat * nat) :=
  (rows ++ columns ++ diagonals)%list.

Definition triple_to_Z (t : nat * nat * nat) : Z * Z * Z :=
  (Z.of_nat t.1.1, Z.of_nat t.1.2, Z.of_nat t.2).

(** The content of cell [i] of a board. *)
Definition cell (b : vec string 9) (i : nat) : string :=
  default "" (vec_to_list b !! i).

(** The three cells of a triple hold one and the same mark. *)
Definition triple_won (b : vec string 9) (t : nat * nat * nat) : Prop :=
  cell b t.1.1 ≠ " " /\ cell b t.1.1 = cell b t.1.2 /\ cell b t.1.2 = cell b t.2.

Definition triple_wonb (b : vec string 9) (t : nat * nat * nat) : bool :=
  negb (cell b t.1.1 =? " ") && (cell b t.1.1 =? cell b t.1.2)
  && (cell b t.1.2 =? cell b t.2).

Definition in_board (t : nat * nat * nat) : Prop :=
  t.1.1 < 9 /\ t.1.2 < 9 /\ t.2 < 9.

(** A board on which the first column and the main diagonal are both won. *)
Definition columnAndDiagonal : vec string 9 :=
  [# "X"; "O"; "O"; "X"; "X"; "O"; "X"; "O"; "X"].

(** [midGameRoom] after ["O"] has been placed on cell 1, which held ["X"]. *)
Definition overwrittenRoom : db.Room :=
  db.mkRoom "AB3D" [# "O"; "O"; " "; " "; "X"; " "; " "; " "; " "]
    "X" "p1" "p2" "Alice" "Bob" true "" [] "playing" 2 1.


(** A finished game of the single-file server, won by ["O"]. *)
Definition legacyFinished : legacy.RoomData :=
  legacy.mkRoomData [# "X"; "X"; " "; "O"; "O"; "O"; "X"; " "; " "]
    "X" "p1" "p2" "Alice" "Bob" "O" "finished".

Definition triple_of_fin (w : fin 9 * fin 9 * fin 9) : nat * nat * nat :=
  (fin_to_nat w.1.1, fin_to_nat w.1.2, fin_to_nat w.2).

(** ** Sequences of store operations *)

(** One call of the package [db] that writes to the store. *)
Inductive call : Type :=
| callCreateRoom (code pid name : string) (public : bool)
| callJoinRoom (code pid name : string)
| callLeaveRoom (code pid : string) (isHost : bool)
| callUpdateMove (code pid : string) (idx : Z) (r : db.Room)
| callRestartGame (code : string).

(** The store after a call; the error a call returns is dropped here, as
    the callers in the package [ui] do. *)
Definition exec (c : call) (st : db.store) : run db.store :=
  match c with
  | callCreateRoom code pid name public =>
      Done (db.CreateRoom code pid name public st).2
  | callJoinRoom code pid name => Done (db.JoinRoom code pid name st).2
  | callLeaveRoom code pid isHost => Done (db.LeaveRoom code pid isHost st).2
  | callUpdateMove code pid idx r =>
      out ← db.UpdateMove code pid idx r st; Done out.2
  | callRestartGame code => Done (db.RestartGame code st).2
  end.

Fixpoint exec_all (cs : list call) (st : db.store) : run db.store :=
  match cs with
  | [] => Done st
  | c :: rest => st' ← exec c st; exec_all rest st'
  end.

(** A document that [tn.Unmarshal] decodes into the strict [Room]. *)
Definition strict_doc (doc : db.rawRoom) : Prop :=
  exists r : db.Room, db.unmarshalRoom doc = Ok r.

Definition strict_store (st : db.store) : Prop :=
  forall (code : string) (doc : db.rawRoom), st !! code = Some doc -> strict_doc doc.

(** ** Package [ui]: polling and the update loop around the game screen *)

Module ui_loop.

(** The zero value [roomUpdateMsg{}]. *)
Definition zeroRoom : db.Room :=
  db.mkRoom "" (vreplicate 9 "") "" "" "" "" "" false "" [] "" 0 0.

(** The message a tick of [pollCmd(code)] delivers. *)
Definition pollCmd (code : string) (st : db.store) : ui.Msg :=
  match db.GetRoom code st with
  | Ok r => ui.roomUpdateMsg r
  | Err _ => ui.roomUpdateMsg zeroRoom
  end.

(** The commands of [Update]: those of the game screen, and [tea.Quit]. *)
Inductive Cmd : Type :=
| gameCmd (c : ui.Cmd)
| Quit.

(** [Update], for a session on the lobby or game screen.  The popup handler
    calls [db.LeaveRoom] directly, hence the store.  [None] stands for the
    dispatch to one of the other screens (name input, menu, room
    settings, code input, public list), whose handlers are not part of
    this model.  A window-size message only sets the terminal size, which
    the model leaves out, and is an [otherMsg] here. *)
Definition Update (m : ui.Model) (msg : ui.Msg) (st : db.store)
  : option (run (ui.Model * Cmd) * db.store) :=
  let ctrl_c := match msg with ui.KeyMsg key => key =? "ctrl+c" | _ => false end in
  if ctrl_c then Some (Done (m, Quit), st)
  else if ui.PopupActive m then
    match msg with
    | ui.KeyMsg key =>
        if ui.key_in key ["y"; "enter"] then
          let isHost := ui.MySide m =? "X" in
          let st :=
            if negb (ui.RoomCode m =? "")
            then (db.LeaveRoom (ui.RoomCode m) (ui.SessionID m) isHost st).2
            else st in
          let m := ui.set_PopupActive false m in
          let m := ui.set_State ui.StateMenu m in
          let m := ui.set_Err None m in
          let m := ui.set_RoomCode "" m in
          Some (Done (m, gameCmd ui.nilCmd), st)
        else if ui.key_in key ["n"; "esc"] then
          Some (Done (ui.set_PopupActive false m, gameCmd ui.nilCmd), st)
        else Some (Done (m, gameCmd ui.nilCmd), st)
    | _ => Some (Done (m, gameCmd ui.nilCmd), st)
    end
  else
    match ui.State m with
    | ui.StateLobby | ui.StateGame =>
        Some (out ← ui.updateGame m msg; Done (out.1, gameCmd out.2), st)
    | _ => None
    end.

End ui_loop.

(** ** The single-file server: its store commands and its game screen *)

Module legacy_server.

Abbreviation store := (gmap string legacy.RoomData).

Definition zeroRoomData : legacy.RoomData :=
  legacy.mkRoomData (vreplicate 9 "") "" "" "" "" "" "" "".

(** [ref.Get(ctx, &room)]: a missing document leaves the zero value. *)
Definition ref_Get (st : store) (code : string) : legacy.RoomData :=
  default zeroRoomData (st !! code).

Definition set_PlayerO (v : string) (r : legacy.RoomData) : legacy.RoomData :=
  legacy.mkRoomData (legacy.Board r) (legacy.Turn r) (legacy.PlayerX r) v
    (legacy.PlayerXName r) (legacy.PlayerOName r) (legacy.Winner r)
    (legacy.Status r).

Definition set_PlayerOName (v : string) (r : legacy.RoomData) : legacy.RoomData :=
  legacy.mkRoomData (legacy.Board r) (legacy.Turn r) (legacy.PlayerX r)
    (legacy.PlayerO r) (legacy.PlayerXName r) v (legacy.Winner r)
    (legacy.Status r).

Inductive Msg : Type :=
| roomCreatedMsg (code : string)
| roomJoinedMsg (code : string)
| errMsg (e : error)
| dbUpdateMsg (r : legacy.RoomData)
| KeyMsg (key : string)
| nilMsg.

Definition createRoomCmd (code playerID name : string) (st : store) : Msg * store :=
  let data :=
    legacy.mkRoomData emptyBoard "X" playerID "" name "" "" "waiting" in
  (roomCreatedMsg code, <[code := data]> st).

(** [joinRoomCmd] after its [ref.Get]: the check on the document that was
    read, and the [ref.Update] of three fields on the store as it is when
    the update arrives. *)
Definition joinRoomCmd_after_Get (code playerID name : string)
    (room : legacy.RoomData) (st : store) : Msg * store :=
  if negb (legacy.PlayerO room =? "") then (errMsg (Errorf "room is full"), st)
  else
    let doc := ref_Get st code in
    let doc := set_PlayerO playerID doc in
    let doc := set_PlayerOName name doc in
    let doc := legacy.set_Status "playing" doc in
    (roomJoinedMsg code, <[code := doc]> st).

Definition joinRoomCmd (code playerID name : string) (st : store) : Msg * store :=
  joinRoomCmd_after_Get code playerID name (ref_Get st code) st.

Definition pollGameCmd (code : string) (st : store) : Msg :=
  dbUpdateMsg (ref_Get st code).

Definition makeMoveCmd (code : string) (current : legacy.RoomData) (index : Z)
    (player : string) (st : store) : run (Msg * store) :=
  board ← board_set (legacy.Board current) index player;
  winner ← legacy.checkWinner board;
  let status :=
    if negb (winner =? "") || legacy.checkDraw board then "finished"
    else "playing" in
  let nextTurn := if player =? "O" then "X" else "O" in
  let doc := ref_Get st code in
  let doc := legacy.set_Board board doc in
  let doc := legacy.set_Turn nextTurn doc in
  let doc := legacy.set_Winner winner doc in
  let doc := legacy.set_Status status doc in
  Done (nilMsg, <[code := doc]> st).

Definition triggerRematchCmd (code rule prevWinner : string) (rnd : Z)
    (st : store) : Msg * store :=
  match legacy.triggerRematchCmd_fn rule prevWinner rnd (ref_Get st code) with
  | Ok r => (nilMsg, <[code := r]> st)
  | Err e => (errMsg e, st)
  end.

Inductive sessionState : Type :=
| stateNameInput | stateMenu | stateInputCode | stateLobby | stateGame.

Definition is_stateLobby (s : sessionState) : bool :=
  match s with stateLobby => true | _ => false end.

(** The fields of [model] the game screen reads or writes; the terminal
    size, the text input and the player's name are left out. *)
Record model : Type := mkmodel {
  state : sessionState;
  err : option error;
  cursorR : Z;
  cursorC : Z;
  sessionID : string;
  mySide : string;
  roomCode : string;
  quitting : bool;
  rematchMenu : Z;
  game : legacy.RoomData
}.

Inductive Cmd : Type :=
| nilCmd
| Quit
| poll (code : string)
| rematch (code rule prevWinner : string)
| move (code : string) (current : legacy.RoomData) (index : Z) (player : string).

Definition set_state (v : sessionState) (m : model) : model :=
  mkmodel v (err m) (cursorR m) (cursorC m) (sessionID m) (mySide m)
    (roomCode m) (quitting m) (rematchMenu m) (game m).

Definition set_err (v : option error) (m : model) : model :=
  mkmodel (state m) v (cursorR m) (cursorC m) (sessionID m) (mySide m)
    (roomCode m) (quitting m) (rematchMenu m) (game m).

Definition set_cursorR (v : Z) (m : model) : model :=
  mkmodel (state m) (err m) v (cursorC m) (sessionID m) (mySide m)
    (roomCode m) (quitting m) (rematchMenu m) (game m).

Definition set_cursorC (v : Z) (m : model) : model :=
  mkmodel (state m) (err m) (cursorR m) v (sessionID m) (mySide m)
    (roomCode m) (quitting m) (rematchMenu m) (game m).

Definition set_quitting (v : bool) (m : model) : model :=
  mkmodel (state m) (err m) (cursorR m) (cursorC m) (sessionID m) (mySide m)
    (roomCode m) v (rematchMenu m) (game m).

Definition set_rematchMenu (v : Z) (m : model) : model :=
  mkmodel (state m) (err m) (cursorR m) (cursorC m) (sessionID m) (mySide m)
    (roomCode m) (quitting m) v (game m).

Definition set_game (v : legacy.RoomData) (m : model) : model :=
  mkmodel (state m) (err m) (cursorR m) (cursorC m) (sessionID m) (mySide m)
    (roomCode m) (quitting m) (rematchMenu m) v.

Definition updateGame (m : model) (msg : Msg) : run (model * Cmd) :=
  match msg with
  | dbUpdateMsg r =>
      let prevWinner := legacy.Winner (game m) in
      let m := set_game r m in
      let m :=
        if is_stateLobby (state m) && (legacy.Status (game m) =? "playing")
        then set_state stateGame m else m in
      let m :=
        if negb (prevWinner =? "") && (legacy.Winner (game m) =? "")
           && (legacy.Status (game m) =? "playing")
        then set_cursorC 1 (set_cursorR 1 (set_err None m)) else m in
      Done (m, poll (roomCode m))
  | KeyMsg key =>
      if (legacy.Status (game m) =? "finished") && (mySide m =? "X") then
        if ui.key_in key ["left"; "h"] then Done (set_rematchMenu 0 m, nilCmd)
        else if ui.key_in key ["right"; "l"] then Done (set_rematchMenu 1 m, nilCmd)
        else if ui.key_in key ["enter"; " "] then
          Done (m, rematch (roomCode m) (legacy.rematch_rule (rematchMenu m))
                     (legacy.Winner (game m)))
        else if key =? "q" then Done (set_quitting true m, Quit)
        else Done (m, nilCmd)
      else if (legacy.Status (game m) =? "finished") && (mySide m =? "O") then
        if key =? "q" then Done (set_quitting true m, Quit)
        else Done (m, nilCmd)
      else if negb (legacy.Status (game m) =? "playing") then Done (m, nilCmd)
      else if ui.key_in key ["up"; "k"] then
        Done (if (cursorR m >? 0)%Z then set_cursorR (cursorR m - 1) m else m,
              nilCmd)
      else if ui.key_in key ["down"; "j"] then
        Done (if (cursorR m <? 2)%Z then set_cursorR (cursorR m + 1) m else m,
              nilCmd)
      else if ui.key_in key ["left"; "h"] then
        Done (if (cursorC m >? 0)%Z then set_cursorC (cursorC m - 1) m else m,
              nilCmd)
      else if ui.key_in key ["right"; "l"] then
        Done (if (cursorC m <? 2)%Z then set_cursorC (cursorC m + 1) m else m,
              nilCmd)
      else if ui.key_in key [" "; "enter"] then
        let index := (cursorR m * 3 + cursorC m)%Z in
        if legacy.Turn (game m) =? mySide m then
          cell ← board_get (legacy.Board (game m)) index;
          if cell =? " " then
            Done (m, move (roomCode m) (game m) index (mySide m))
          else Done (m, nilCmd)
        else Done (m, nilCmd)
      else Done (m, nilCmd)
  | _ => Done (m, nilCmd)
  end.

(** The store after a command has run; [rnd] is what [rand.Intn(2)]
    returns if the command draws. *)
Definition runCmd (c : Cmd) (rnd : Z) (st : store) : run store :=
  match c with
  | nilCmd | Quit | poll _ => Done st
  | rematch code rule prevWinner =>
      Done (triggerRematchCmd code rule prevWinner rnd st).2
  | move code current index player =>
      out ← makeMoveCmd code current index player st; Done out.2
  end.

(** [generateRoomCode], and [generateCode] of the package [ui], which is
    the same function: [draws] are the four values of [rand.Intn(32)]. *)
Definition chars : string := "ABCDEFGHJKLMNPQRSTUVWXYZ23456789".

Definition chars_at (i : Z) : run ascii :=
  if (i <? 0)%Z then Panicked
  else match String.get (Z.to_nat i) chars with
       | Some c => Done c
       | None => Panicked
       end.

Definition generateRoomCode (draws : Z * Z * Z * Z) : run string :=
  let '(d0, d1, d2, d3) := draws in
  c0 ← chars_at d0;
  c1 ← chars_at d1;
  c2 ← chars_at d2;
  c3 ← chars_at d3;
  Done (String c0 (String c1 (String c2 (String c3 EmptyString)))).

End legacy_server.

(** The cursor of a session is on the 3x3 grid. *)
Definition in_grid (m : ui.Model) : Prop :=
  (0 <= ui.CursorR m <= 2)%Z /\ (0 <= ui.CursorC m <= 2)%Z.

(** The game screen fed a sequence of messages. *)
Fixpoint updateGame_all (m : ui.Model) (msgs : list ui.Msg) : run ui.Model :=
  match msgs with
  | [] => Done m
  | msg :: rest => out ← ui.updateGame m msg; updateGame_all out.1 rest
  end.

(** The second player's session with the cursor on the empty cell 2, and
    the same session with the leave popup open. *)
Definition readyModel : ui.Model :=
  ui.mkModel "p2" None ui.StateGame false "O" "AB3D" 0 2 midGameRoom.

Definition popupModel : ui.Model :=
  ui.mkModel "p2" None ui.StateGame true "O" "AB3D" 0 2 midGameRoom.

(** The same two notions for the single-file server. *)
Definition legacy_in_grid (m : legacy_server.model) : Prop :=
  (0 <= legacy_server.cursorR m <= 2)%Z /\ (0 <= legacy_server.cursorC m <= 2)%Z.

Fixpoint legacy_updateGame_all (m : legacy_server.model)
    (msgs : list legacy_server.Msg) : run legacy_server.model :=
  match msgs with
  | [] => Done m
  | msg :: rest =>
      out ← legacy_server.updateGame m msg; legacy_updateGame_all out.1 rest
  end.

(** The three cells of a triple are three different cells. *)
Definition distinct_cells (t : nat * nat * nat) : Prop :=
  t.1.1 ≠ t.1.2 /\ t.1.2 ≠ t.2 /\ t.1.1 ≠ t.2.

(** A character the room codes avoid because it is easily misread. *)
Definition ambiguous (c : ascii) : Prop :=
  c = "I"%char \/ c = "O"%char \/ c = "0"%char \/ c = "1"%char.

(** The host's session of the single-file server after a win of ["O"], and
    a store that holds this game. *)
Definition legacyHost : legacy_server.model :=
  legacy_server.mkmodel legacy_server.stateGame (Some (Errorf "late")) 0 2
    "p1" "X" "AB3D" false 0 legacyFinished.

Definition legacyStore : legacy_server.store := {[ "AB3D" := legacyFinished ]}.

Definition legacyFresh : legacy.RoomData :=
  legacy.mkRoomData emptyBoard "X" "p1" "" "Alice" "" "" "waiting".

(** ** Package [ui]: the public rooms screen *)

Module public_list.

Inductive Msg : Type :=
| roomsFetchedMsg (rooms : list db.Room)
| KeyMsg (key : string)
| otherMsg.

(** The commands the screen returns: [pollCmd(code)] after a join, and
    otherwise whatever the search input's own update returns. *)
Inductive Cmd : Type :=
| pollCmd (code : string)
| inputCmd.

(** The fields of [Model] this screen reads or writes; [SearchValue] is
    [m.SearchInput.Value()]. *)
Record Model : Type := mkModel {
  SessionID : string;
  Err : option error;
  State : ui.SessionState;
  SearchValue : string;
  PublicRooms : list db.Room;
  ListSelectedRow : Z;
  MyName : string;
  MySide : string;
  RoomCode : string
}.

Definition set_Err (v : option error) (m : Model) : Model :=
  mkModel (SessionID m) v (State m) (SearchValue m) (PublicRooms m)
    (ListSelectedRow m) (MyName m) (MySide m) (RoomCode m).

Definition set_State (v : ui.SessionState) (m : Model) : Model :=
  mkModel (SessionID m) (Err m) v (SearchValue m) (PublicRooms m)
    (ListSelectedRow m) (MyName m) (MySide m) (RoomCode m).

Definition set_SearchValue (v : string) (m : Model) : Model :=
  mkModel (SessionID m) (Err m) (State m) v (PublicRooms m)
    (ListSelectedRow m) (MyName m) (MySide m) (RoomCode m).

Definition set_PublicRooms (v : list db.Room) (m : Model) : Model :=
  mkModel (SessionID m) (Err m) (State m) (SearchValue m) v
    (ListSelectedRow m) (MyName m) (MySide m) (RoomCode m).

Definition set_ListSelectedRow (v : Z) (m : Model) : Model :=
  mkModel (SessionID m) (Err m) (State m) (SearchValue m) (PublicRooms m)
    v (MyName m) (MySide m) (RoomCode m).

Definition set_MySide (v : string) (m : Model) : Model :=
  mkModel (SessionID m) (Err m) (State m) (SearchValue m) (PublicRooms m)
    (ListSelectedRow m) (MyName m) v (RoomCode m).

Definition set_RoomCode (v : string) (m : Model) : Model :=
  mkModel (SessionID m) (Err m) (State m) (SearchValue m) (PublicRooms m)
    (ListSelectedRow m) (MyName m) (MySide m) v.

(** [list[i]] for an [int] index into a slice. *)
Definition slice_get (l : list db.Room) (i : Z) : run db.Room :=
  if (i <? 0)%Z then Panicked
  else match l !! Z.to_nat i with
       | Some r => Done r
       | None => Panicked
       end.

Section library.

(** [strings.ToUpper], [strings.Contains] and the update of the search
    input (its new text) are library functions; the screen is modelled for
    whatever they compute. *)
Variable ToUpper : string -> string.
Variable Contains : string -> string -> bool.
Variable SearchInput_Update : string -> Msg -> string.

(** The filter test shared by [getSortedList] and [renderPublicList]. *)
Definition shown (filter : string) (r : db.Room) : bool :=
  (filter =? "") || Contains (db.Code r) filter
  || Contains (ToUpper (db.PlayerXName r)) filter.

(** [for _, r := range m.PublicRooms { ... }], filling [open] and [full]. *)
Fixpoint split_rooms (filter : string) (rooms open full : list db.Room)
  : list db.Room * list db.Room :=
  match rooms with
  | [] => (open, full)
  | r :: rest =>
      if shown filter r then
        if db.PlayerO r =? "" then split_rooms filter rest (open ++ [r])%list full
        else split_rooms filter rest open (full ++ [r])%list
      else split_rooms filter rest open full
  end.

(** The closure [getSortedList] of [updatePublicList]. *)
Definition getSortedList (m : Model) : list db.Room :=
  let filter := ToUpper (SearchValue m) in
  let '(open, full) := split_rooms filter (PublicRooms m) [] [] in
  (open ++ full)%list.

(** The rooms [renderPublicList] passes to [renderRoomItem], in display
    order, each with its [isSelected] flag. *)
Definition renderPublicList_items (m : Model) : list (db.Room * bool) :=
  let filter := ToUpper (SearchValue m) in
  let '(openRooms, fullRooms) := split_rooms filter (PublicRooms m) [] [] in
  (imap (fun i r => (r, (Z.of_nat i =? ListSelectedRow m)%Z)) openRooms
   ++ imap (fun i r =>
              (r, (Z.of_nat i + Z.of_nat (length openRooms)
                   =? ListSelectedRow m)%Z)) fullRooms)%list.

Definition updatePublicList (m : Model) (msg : Msg) (st : db.store)
  : run (Model * Cmd * db.store) :=
  let finish (m : Model) (st : db.store) :=
    Done (set_SearchValue (SearchInput_Update (SearchValue m) msg) m,
          inputCmd, st) in
  match msg with
  | roomsFetchedMsg rooms =>
      let m := set_PublicRooms rooms m in
      let m := match Err m with Some _ => set_Err None m | None => m end in
      finish m st
  | KeyMsg key =>
      if key =? "esc" then finish (set_State ui.StateMenu m) st
      else if ui.key_in key ["up"; "shift+tab"] then
        finish (if (ListSelectedRow m >? 0)%Z
                then set_ListSelectedRow (ListSelectedRow m - 1) m else m) st
      else if ui.key_in key ["down"; "tab"] then
        let list := getSortedList m in
        finish (if (ListSelectedRow m <? Z.of_nat (length list) - 1)%Z
                then set_ListSelectedRow (ListSelectedRow m + 1) m else m) st
      else if key =? "enter" then
        let list := getSortedList m in
        if (Z.of_nat (length list) >? 0)%Z
           && (ListSelectedRow m <? Z.of_nat (length list))%Z then
          sel ← slice_get list (ListSelectedRow m);
          if db.PlayerO sel =? "" then
            match db.JoinRoom (db.Code sel) (SessionID m) (MyName m) st with
            | (Some e, st') => finish (set_Err (Some e) m) st'
            | (None, st') =>
                let m := set_RoomCode (db.Code sel) m in
                let m := set_MySide "O" m in
                let m := set_State ui.StateGame m in
                Done (m, pollCmd (db.Code sel), st')
            end
          else finish m st
        else finish m st
      else finish m st
  | otherMsg => finish m st
  end.

End library.

End public_list.

(** Sample data for the public rooms screen: the library functions taken as
    the identity, a filter that matches nothing but the empty search, and a
    search input that keeps its text. *)
Definition listModel : public_list.Model :=
  public_list.mkModel "p3" None ui.StatePublicList "" (db.GetPublicRooms threeRooms)
    0 "Carol" "" "".

(** * Properties *)

Import db.

(** ** Indices *)

Lemma fin9_of_nat_fin (k : fin 9) : fin9_of_nat (fin_to_nat k) = Some k.
Proof.
  repeat (inv_fin k; [reflexivity | intros k]). inv_fin k.
Qed.

Lemma fin9_of_nat_Some (i : nat) (k : fin 9) :
  fin9_of_nat i = Some k -> fin_to_nat k = i.
Proof.
  do 9 (destruct i as [|i]; [intros [= <-]; reflexivity |]).
  discriminate.
Qed.

Lemma fin9_of_nat_None (i : nat) : fin9_of_nat i = None <-> 9 <= i.
Proof.
  split.
  - do 9 (destruct i as [|i]; [discriminate |]). lia.
  - do 9 (destruct i as [|i]; [lia |]). reflexivity.
Qed.

Lemma fin9_of_Z_Some (i : Z) (k : fin 9) :
  fin9_of_Z i = Some k <-> i = Z.of_nat (fin_to_nat k).
Proof.
  unfold fin9_of_Z. split.
  - destruct (Z.ltb_spec i 0); [discriminate |].
    intros H1%fin9_of_nat_Some. lia.
  - intros ->. destruct (Z.ltb_spec (Z.of_nat (fin_to_nat k)) 0); [lia |].
    rewrite Nat2Z.id. apply fin9_of_nat_fin.
Qed.

Lemma fin9_of_Z_None (i : Z) : fin9_of_Z i = None <-> (i < 0 \/ 9 <= i)%Z.
Proof.
  unfold fin9_of_Z. destruct (Z.ltb_spec i 0).
  - split; [lia | reflexivity].
  - rewrite fin9_of_nat_None. lia.
Qed.

Lemma emptyBoard_lookup (k : fin 9) : emptyBoard !!! k = " ".
Proof.
  repeat (inv_fin k; [reflexivity | intros k]). inv_fin k.
Qed.

(** ** Formatting *)

Example Sprintf_0f_examples :
  Sprintf_0f (S754_finite false 5 (-1)) = "2" /\
  Sprintf_0f (S754_finite false 7 (-1)) = "4" /\
  Sprintf_0f (S754_finite true 3 (-3)) = "-0" /\
  Sprintf_0f (S754_finite false 3 2) = "12" /\
  Sprintf_0f (S754_zero false) = "0" /\
  Sprintf_d (-7) = "-7".
Proof. repeat split; reflexivity. Qed.

(** ** Sanitization on the read path *)

Lemma sanitizeCell_unparseable (val : iface) :
  unparseable val -> sanitizeCell val = " ".
Proof. destruct val; simpl; intros H; try reflexivity; destruct H. Qed.

(** The loop writes entry [k - i] of the remaining input to cell [k], for the
    cells from [i] on, and leaves the others alone. *)
Lemma sanitizeBoard_lookup (vals : list iface) :
  forall (i : nat) (board : vec string 9) (k : fin 9),
    sanitizeBoard i vals board !!! k =
      if decide (i <= fin_to_nat k) then
        match vals !! (fin_to_nat k - i) with
        | Some val => sanitizeCell val
        | None => board !!! k
        end
      else board !!! k.
Proof.
  induction vals as [|val rest IH]; intros i board k; simpl.
  - destruct (decide _); reflexivity.
  - destruct (fin9_of_nat i) as [j|] eqn:Hi.
    + apply fin9_of_nat_Some in Hi. rewrite IH.
      destruct (decide (fin_to_nat k = i)) as [Heq|Hne].
      * assert (j = k) as -> by (apply (inj fin_to_nat); congruence).
        rewrite decide_False by lia. rewrite decide_True by lia.
        rewrite Heq, Nat.sub_diag. simpl. apply vlookup_insert.
      * assert (j ≠ k) by congruence.
        destruct (decide (i <= fin_to_nat k)).
        -- rewrite decide_True by lia.
           replace (fin_to_nat k - i) with (S (fin_to_nat k - S i)) by lia.
           simpl. rewrite vlookup_insert_ne by done. reflexivity.
        -- rewrite decide_False by lia. by rewrite vlookup_insert_ne.
    + apply fin9_of_nat_None in Hi.
      pose proof (fin_to_nat_lt k). by rewrite decide_False by lia.
Qed.

(** The "fix the code if it is missing" step never changes anything: the
    code was just set from the same argument. *)
Lemma sanitizeRoom_eq (code : string) (raw : rawRoom) :
  sanitizeRoom code raw =
    mkRoom code (sanitizeBoard 0 (raw_Board raw) emptyBoard) (raw_Turn raw)
      (raw_PlayerX raw) (raw_PlayerO raw) (raw_PlayerXName raw)
      (raw_PlayerOName raw) (raw_IsPublic raw) (raw_Winner raw)
      (raw_WinningLine raw) (raw_Status raw) (raw_WinsX raw) (raw_WinsO raw).
Proof. unfold sanitizeRoom. simpl. destruct (code =? ""); reflexivity. Qed.

Lemma sanitizeRoom_Board_lookup (code : string) (raw : rawRoom) (k : fin 9) :
  Board (sanitizeRoom code raw) !!! k =
    match raw_Board raw !! fin_to_nat k with
    | Some val => sanitizeCell val
    | None => " "
    end.
Proof.
  rewrite sanitizeRoom_eq. simpl. rewrite sanitizeBoard_lookup.
  rewrite decide_True by lia. rewrite Nat.sub_0_r, emptyBoard_lookup.
  reflexivity.
Qed.

Lemma GetRoom_found (st : store) (code : string) (raw : rawRoom) :
  st !! code = Some raw -> raw_PlayerX raw ≠ "" ->
  GetRoom code st = Ok (sanitizeRoom code raw).
Proof.
  intros Hst Hx. unfold GetRoom, ref_Get. rewrite Hst. simpl.
  apply String.eqb_neq in Hx. by rewrite Hx.
Qed.

(** C2.  A stored document with a creator, read through [GetRoom], gives a
    room whose board has exactly nine cells, and every cell whose entry in
    the document is missing (the array is too short) or is neither a string
    nor a number holds the empty-cell value [" "]. *)
Theorem GetRoom_sanitizes_board (st : store) (code : string) (raw : rawRoom) :
  st !! code = Some raw ->
  raw_PlayerX raw ≠ "" ->
  exists room : Room,
    GetRoom code st = Ok room /\
    length (vec_to_list (Board room)) = 9 /\
    forall k : fin 9,
      match raw_Board raw !! fin_to_nat k with
      | Some val => unparseable val
      | None => True
      end ->
      Board room !!! k = " ".
Proof.
  intros Hst Hx. exists (sanitizeRoom code raw).
  split; [by apply GetRoom_found |].
  split; [apply length_vec_to_list |].
  intros k Hk. rewrite sanitizeRoom_Board_lookup.
  destruct (raw_Board raw !! fin_to_nat k); [| reflexivity].
  by apply sanitizeCell_unparseable.
Qed.

Lemma GetRoom_sanitizes_board_witness :
  exists room : Room,
    GetRoom "AB3D" mixedStore = Ok room /\
    length (vec_to_list (Board room)) = 9 /\
    forall k : fin 9,
      match raw_Board mixedDoc !! fin_to_nat k with
      | Some val => unparseable val
      | None => True
      end ->
      Board room !!! k = " ".
Proof.
  apply (GetRoom_sanitizes_board mixedStore "AB3D" mixedDoc).
  - vm_compute. reflexivity.
  - discriminate.
Defined.

Example GetRoom_mixedStore :
  GetRoom "AB3D" mixedStore =
    Ok (mkRoom "AB3D" [# "X"; "2"; " "; " "; "O"; " "; " "; " "; " "]
          "X" "p1" "" "Alice" "" true "" [] "waiting" 0 0).
Proof. vm_compute. reflexivity. Qed.

(** ** Create, then get *)

Lemma sanitizeBoard_marshal_emptyBoard :
  sanitizeBoard 0 (VString <$> vec_to_list emptyBoard) emptyBoard = emptyBoard.
Proof. reflexivity. Qed.



(** ** Joining a room *)

Ltac case_eqb :=
  repeat match goal with
         | |- context [String.eqb ?a ?b] =>
             destruct (String.eqb_spec a b); simpl in *; try congruence
         end.

Lemma JoinRoom_fn_not_found (pid name : string) (raw : rawRoom) :
  raw_PlayerX raw = "" ->
  JoinRoom_fn pid name raw = Err (Errorf "room not found").
Proof. intros H. unfold JoinRoom_fn. by rewrite H. Qed.

Lemma JoinRoom_fn_full (pid name : string) (raw : rawRoom) :
  raw_PlayerX raw ≠ "" -> raw_PlayerO raw ≠ "" -> raw_PlayerO raw ≠ pid ->
  JoinRoom_fn pid name raw = Err (Errorf "room is full").
Proof. intros Hx Ho Hp. unfold JoinRoom_fn. case_eqb. Qed.

Lemma JoinRoom_fn_joins (pid name : string) (raw : rawRoom) :
  raw_PlayerX raw ≠ "" -> raw_PlayerO raw = "" \/ raw_PlayerO raw = pid ->
  JoinRoom_fn pid name raw =
    Ok (set_raw_Status "playing"
          (set_raw_PlayerOName name (set_raw_PlayerO pid raw))).
Proof. intros Hx [Ho|Ho]; unfold JoinRoom_fn; case_eqb. Qed.

Lemma ref_Get_insert (st : store) (code : string) (doc : rawRoom) :
  ref_Get (<[code := doc]> st) code = doc.
Proof. unfold ref_Get. by rewrite lookup_insert_eq. Qed.

Lemma Transaction_abort (fn : rawRoom -> result rawRoom) (code : string)
    (st : store) (raw : rawRoom) (e : error) :
  st !! code = Some raw -> fn raw = Err e ->
  Transaction fn code st = (Some e, st).
Proof.
  intros Hst Hfn. unfold Transaction, ref_Get. rewrite Hst. simpl.
  by rewrite Hfn.
Qed.

Lemma Transaction_commit (fn : rawRoom -> result rawRoom) (code : string)
    (st : store) (raw doc : rawRoom) :
  st !! code = Some raw -> fn raw = Ok doc ->
  Transaction fn code st = (None, <[code := doc]> st).
Proof.
  intros Hst Hfn. unfold Transaction, ref_Get. rewrite Hst. simpl.
  by rewrite Hfn.
Qed.


(** C4.  (1) On a room whose [PlayerO] slot holds another participant's id
    the join transaction fails with "room is full" and the store is left as
    it was.  (2) On a room whose [PlayerO] slot is empty it succeeds and
    writes the joiner's id and name and the status ["playing"], changing
    nothing else.  (3) Hence, of two joins by different ids on a
    freshly created room, exactly one succeeds: the one whose transaction
    is applied first succeeds and leaves the room ["playing"], and the
    other fails with "room is full" and changes nothing.  Participant ids
    are not empty; the empty string is how the code marks a free slot. *)
Theorem JoinRoom_one_winner :
  (forall (st : store) (code pid name : string) (raw : rawRoom),
      st !! code = Some raw ->
      raw_PlayerX raw ≠ "" -> raw_PlayerO raw ≠ "" -> raw_PlayerO raw ≠ pid ->
      JoinRoom_fn pid name raw = Err (Errorf "room is full") /\
      JoinRoom code pid name st = (Some (Errorf "room is full"), st)) /\
  (forall (st : store) (code pid name : string) (raw : rawRoom),
      st !! code = Some raw ->
      raw_PlayerX raw ≠ "" -> raw_PlayerO raw = "" ->
      let doc := set_raw_Status "playing"
                   (set_raw_PlayerOName name (set_raw_PlayerO pid raw)) in
      JoinRoom_fn pid name raw = Ok doc /\
      JoinRoom code pid name st = (None, <[code := doc]> st) /\
      raw_PlayerO doc = pid /\ raw_PlayerOName doc = name /\
      raw_Status doc = "playing") /\
  (forall (st : store) (code host hostName : string) (public : bool)
          (p1 n1 p2 n2 : string),
      host ≠ "" -> p1 ≠ "" -> p2 ≠ p1 ->
      let st0 := (CreateRoom code host hostName public st).2 in
      let st1 := (JoinRoom code p1 n1 st0).2 in
      (JoinRoom code p1 n1 st0).1 = None /\
      (exists doc : rawRoom,
          st1 !! code = Some doc /\ raw_PlayerO doc = p1 /\
          raw_PlayerOName doc = n1 /\ raw_Status doc = "playing") /\
      JoinRoom code p2 n2 st1 = (Some (Errorf "room is full"), st1)).
Proof.
  split; [| split].
  - intros st code pid name raw Hst Hx Ho Hp.
    pose proof (JoinRoom_fn_full pid name raw Hx Ho Hp) as Hfn.
    split; [exact Hfn |]. by apply (Transaction_abort _ _ _ raw).
  - intros st code pid name raw Hst Hx Ho doc.
    assert (JoinRoom_fn pid name raw = Ok doc) as Hfn
      by (apply JoinRoom_fn_joins; auto).
    split; [exact Hfn |].
    split; [by apply (Transaction_commit _ _ _ raw) |].
    repeat split; reflexivity.
  - intros st code host hostName public p1 n1 p2 n2 Hh H1 H12 st0 st1.
    set (r0 := marshalRoom
                 (mkRoom code emptyBoard "X" host "" hostName "" public ""
                    [] "waiting" 0 0)).
    assert (st0 !! code = Some r0) as Hst0 by apply lookup_insert_eq.
    set (doc := set_raw_Status "playing"
                  (set_raw_PlayerOName n1 (set_raw_PlayerO p1 r0))).
    assert (JoinRoom code p1 n1 st0 = (None, <[code := doc]> st0)) as Hj1.
    { apply (Transaction_commit _ _ _ r0); [exact Hst0 |].
      apply JoinRoom_fn_joins; [exact Hh | by left]. }
    subst st1. rewrite Hj1. simpl.
    split; [reflexivity |]. split.
    + exists doc. split; [apply lookup_insert_eq |]. repeat split; reflexivity.
    + apply (Transaction_abort _ _ _ doc); [apply lookup_insert_eq |].
      apply JoinRoom_fn_full; simpl; congruence.
Qed.

Lemma JoinRoom_one_winner_witness :
  (JoinRoom_fn "p3" "Carol" joinedDoc = Err (Errorf "room is full") /\
   JoinRoom "AB3D" "p3" "Carol" joinedStore
     = (Some (Errorf "room is full"), joinedStore)) /\
  (JoinRoom_fn "p2" "Bob" freshDoc = Ok joinedDoc /\
   JoinRoom "AB3D" "p2" "Bob" freshStore
     = (None, <["AB3D" := joinedDoc]> freshStore)) /\
  (let st0 := (CreateRoom "AB3D" "p1" "Alice" true ∅).2 in
   let st1 := (JoinRoom "AB3D" "p2" "Bob" st0).2 in
   (JoinRoom "AB3D" "p2" "Bob" st0).1 = None /\
   JoinRoom "AB3D" "p3" "Carol" st1 = (Some (Errorf "room is full"), st1)).
Proof.
  destruct JoinRoom_one_winner as (Hfull & Hjoin & Hrace).
  split; [| split].
  - apply (Hfull joinedStore "AB3D" "p3" "Carol" joinedDoc);
      [vm_compute; reflexivity | discriminate ..].
  - destruct (Hjoin freshStore "AB3D" "p2" "Bob" freshDoc) as (H1 & H2 & _);
      [vm_compute; reflexivity | discriminate | reflexivity |].
    split; [exact H1 | exact H2].
  - destruct (Hrace ∅ "AB3D" "p1" "Alice" true "p2" "Bob" "p3" "Carol")
      as (H1 & _ & H3); [discriminate ..|].
    split; [exact H1 | exact H3].
Defined.

(** C9.  The join transaction is idempotent for one joiner id: on a room
    whose [PlayerO] already is the joiner's id it succeeds, writing the id,
    the name and the status ["playing"] again, and a second join after a
    successful one returns the same document; "room is full" is returned
    exactly when the room exists and its [PlayerO] is a different,
    non-empty id. *)
Theorem JoinRoom_same_id_idempotent :
  (forall (pid name : string) (raw : rawRoom),
      raw_PlayerX raw ≠ "" -> raw_PlayerO raw = pid ->
      JoinRoom_fn pid name raw =
        Ok (set_raw_Status "playing"
              (set_raw_PlayerOName name (set_raw_PlayerO pid raw)))) /\
  (forall (pid name : string) (raw doc : rawRoom),
      JoinRoom_fn pid name raw = Ok doc ->
      JoinRoom_fn pid name doc = Ok doc) /\
  (forall (pid name : string) (raw : rawRoom),
      JoinRoom_fn pid name raw = Err (Errorf "room is full") <->
      raw_PlayerX raw ≠ "" /\ raw_PlayerO raw ≠ "" /\ raw_PlayerO raw ≠ pid).
Proof.
  split; [| split].
  - intros pid name raw Hx Ho. apply JoinRoom_fn_joins; auto.
  - intros pid name raw doc Hfn.
    destruct (String.eqb_spec (raw_PlayerX raw) "") as [Hx|Hx].
    { rewrite JoinRoom_fn_not_found in Hfn by done. discriminate. }
    destruct (String.eqb_spec (raw_PlayerO raw) "") as [Ho|Ho];
      [| destruct (String.eqb_spec (raw_PlayerO raw) pid) as [Hp|Hp]].
    + rewrite JoinRoom_fn_joins in Hfn by auto. injection Hfn as <-.
      rewrite JoinRoom_fn_joins by (simpl; auto). reflexivity.
    + rewrite JoinRoom_fn_joins in Hfn by auto. injection Hfn as <-.
      rewrite JoinRoom_fn_joins by (simpl; auto). reflexivity.
    + rewrite JoinRoom_fn_full in Hfn by done. discriminate.
  - intros pid name raw. split.
    + unfold JoinRoom_fn. case_eqb; intros [=]. repeat split; assumption.
    + intros (Hx & Ho & Hp). by apply JoinRoom_fn_full.
Qed.

Lemma JoinRoom_same_id_idempotent_witness :
  JoinRoom_fn "p2" "Bob" joinedDoc = Ok joinedDoc /\
  (JoinRoom "AB3D" "p2" "Bob" joinedStore).1 = None /\
  JoinRoom_fn "p3" "Carol" joinedDoc = Err (Errorf "room is full").
Proof.
  destruct JoinRoom_same_id_idempotent as (Hsame & Hidem & Hfull).
  split; [| split].
  - apply (Hidem "p2" "Bob" freshDoc joinedDoc). reflexivity.
  - unfold JoinRoom, Transaction.
    change (ref_Get joinedStore "AB3D") with joinedDoc.
    rewrite (Hsame "p2" "Bob" joinedDoc); [reflexivity | discriminate | reflexivity].
  - apply (Hfull "p3" "Carol" joinedDoc). repeat split; discriminate.
Defined.

(** ** Restarting a game *)

Lemma unmarshalBoard_marshal (b : vec string 9) :
  unmarshalBoard 0 (VString <$> vec_to_list b) (vreplicate 9 "") = Ok b.
Proof.
  inv_vec b. intros. reflexivity.
Qed.

(** A document written from a strict [Room] decodes to that room. *)
Lemma unmarshalRoom_marshalRoom (r : Room) : unmarshalRoom (marshalRoom r) = Ok r.
Proof.
  unfold unmarshalRoom. simpl. rewrite unmarshalBoard_marshal.
  destruct r; reflexivity.
Qed.

Lemma RestartGame_reset_eq (r : Room) :
  RestartGame_reset r =
    mkRoom (Code r) emptyBoard "X" (PlayerX r) (PlayerO r) (PlayerXName r)
      (PlayerOName r) (IsPublic r) "" [] "playing" (WinsX r) (WinsO r).
Proof. reflexivity. Qed.

Lemma RestartGame_fn_marshalRoom (r : Room) :
  RestartGame_fn (marshalRoom r) = Ok (marshalRoom (RestartGame_reset r)).
Proof. unfold RestartGame_fn. by rewrite unmarshalRoom_marshalRoom. Qed.




(** C10.  The restart transaction does not look at the status: on a stored
    room in any status whatever it succeeds, and the room it writes back
    has an all-empty board, no winner, no winning line and the status
    ["playing"]. *)
Theorem RestartGame_any_status (st : store) (code : string) (r : Room) :
  st !! code = Some (marshalRoom r) ->
  let r' := RestartGame_reset r in
  RestartGame code st = (None, <[code := marshalRoom r']> st) /\
  GetRoom code (RestartGame code st).2 =
    (if PlayerX r =? "" then Err (Errorf "room does not exist")
     else Ok (mkRoom code (Board r') (Turn r') (PlayerX r') (PlayerO r')
                (PlayerXName r') (PlayerOName r') (IsPublic r') (Winner r')
                (WinningLine r') (Status r') (WinsX r') (WinsO r'))) /\
  (forall k : fin 9, Board r' !!! k = " ") /\
  Winner r' = "" /\
  WinningLine r' = [] /\
  Status r' = "playing".
Proof.
  intros Hst r'.
  assert (RestartGame code st = (None, <[code := marshalRoom r']> st)) as Hrun.
  { apply (Transaction_commit _ _ _ (marshalRoom r)); [exact Hst |].
    apply RestartGame_fn_marshalRoom. }
  split; [exact Hrun |]. split.
  - rewrite Hrun. simpl. unfold GetRoom. rewrite ref_Get_insert. simpl.
    destruct (PlayerX r =? ""); [reflexivity |].
    rewrite sanitizeRoom_eq. reflexivity.
  - split; [apply emptyBoard_lookup |]. repeat split; reflexivity.
Qed.

Lemma RestartGame_any_status_witness :
  RestartGame "AB3D" {[ "AB3D" := marshalRoom midGameRoom ]} =
    (None,
     <["AB3D" := marshalRoom (RestartGame_reset midGameRoom)]>
       {[ "AB3D" := marshalRoom midGameRoom ]}) /\
  Status midGameRoom = "playing" /\
  Status (RestartGame_reset midGameRoom) = "playing" /\
  Board (RestartGame_reset midGameRoom) = emptyBoard.
Proof.
  destruct (RestartGame_any_status {[ "AB3D" := marshalRoom midGameRoom ]}
              "AB3D" midGameRoom) as (Hrun & _ & _ & _ & _ & Hstatus).
  - vm_compute. reflexivity.
  - split; [exact Hrun |]. split; [reflexivity |].
    split; [exact Hstatus | reflexivity].
Defined.

Example RestartGame_waitingRoom :
  (RestartGame "AB3D" {[ "AB3D" := marshalRoom waitingRoom ]}).1 = None /\
  GetRoom "AB3D" (RestartGame "AB3D" {[ "AB3D" := marshalRoom waitingRoom ]}).2 =
    Ok (mkRoom "AB3D" emptyBoard "X" "p1" "" "Alice" "" true "" [] "playing" 2 1).
Proof. split; vm_compute; reflexivity. Qed.

(** A document whose board holds a number does not decode into the strict
    [Room]; the transaction then aborts and writes nothing. *)
Example RestartGame_mixedStore :
  RestartGame "AB3D" mixedStore = (Some UnmarshalTypeError, mixedStore).
Proof. reflexivity. Qed.

(** ** The first player after a restart *)

Lemma RestartGame_reset_Turn (r : Room) : Turn (RestartGame_reset r) = "X".
Proof. reflexivity. Qed.

(** C1, the claim as stated fails for [db.RestartGame].  After a game that
    ["O"] won, the restart gives the first move to ["X"]. *)
Lemma RestartGame_after_O_win_turn_X :
  Status finishedRoom = "finished" /\
  Winner finishedRoom = "O" /\
  RestartGame "AB3D" {[ "AB3D" := marshalRoom finishedRoom ]} =
    (None, {[ "AB3D" := marshalRoom restartedRoom ]}) /\
  Turn restartedRoom = "X" /\
  Turn restartedRoom ≠ "O".
Proof.
  split; [reflexivity |]. split; [reflexivity |]. split.
  - unfold RestartGame.
    rewrite (Transaction_commit _ _ _ (marshalRoom finishedRoom)
               (marshalRoom restartedRoom)).
    + by rewrite insert_singleton_eq.
    + apply lookup_singleton_eq.
    + reflexivity.
  - split; [reflexivity | discriminate].
Qed.

(** C1, amended.  The rematch transaction of the single-file server
    ([triggerRematchCmd]) always succeeds and computes the turn from the
    rule and the previous winner: under the rule ["winner"] the turn is
    ["O"] after a win of ["O"] and ["X"] otherwise, in particular after a
    draw; under the rule ["random"] it is ["O"] or ["X"] according to the
    number drawn.  [db.RestartGame] has neither a rule nor a previous
    winner: it sets the turn to ["X"] on every room. *)
Theorem restart_turn :
  (forall (rule prevWinner : string) (rnd : Z) (r : legacy.RoomData),
      exists r' : legacy.RoomData,
        legacy.triggerRematchCmd_fn rule prevWinner rnd r = Ok r' /\
        (rule = "winner" -> prevWinner = "O" -> legacy.Turn r' = "O") /\
        (rule = "winner" -> prevWinner ≠ "O" -> legacy.Turn r' = "X") /\
        (rule = "random" -> rnd = 0%Z -> legacy.Turn r' = "O") /\
        (rule = "random" -> rnd ≠ 0%Z -> legacy.Turn r' = "X")) /\
  (forall r : Room, Turn (RestartGame_reset r) = "X").
Proof.
  split; [| exact RestartGame_reset_Turn].
  intros rule prevWinner rnd r. eexists. split; [reflexivity |].
  simpl. repeat split; intros -> H; simpl.
  - subst prevWinner. reflexivity.
  - destruct (String.eqb_spec prevWinner "O"); [contradiction | reflexivity].
  - subst rnd. reflexivity.
  - destruct (Z.eqb_spec rnd 0); [contradiction | reflexivity].
Qed.

Lemma restart_turn_witness :
  (exists r' : legacy.RoomData,
      legacy.triggerRematchCmd_fn "winner" "O" 1 legacyFinished = Ok r' /\
      legacy.Turn r' = "O") /\
  (exists r' : legacy.RoomData,
      legacy.triggerRematchCmd_fn "winner" "" 0 legacyFinished = Ok r' /\
      legacy.Turn r' = "X") /\
  Turn (RestartGame_reset finishedRoom) = "X".
Proof.
  destruct restart_turn as (Hlegacy & Hdb).
  split; [| split].
  - destruct (Hlegacy "winner" "O" 1%Z legacyFinished) as (r' & Hfn & HO & _).
    exists r'. split; [exact Hfn | by apply HO].
  - destruct (Hlegacy "winner" "" 0%Z legacyFinished) as (r' & Hfn & _ & HX & _).
    exists r'. split; [exact Hfn | by apply HX].
  - apply (Hdb finishedRoom).
Defined.

(** The host's rematch menu passes ["winner"] for its first entry and
    ["random"] for its second. *)
Example rematch_rule_menu :
  legacy.rematch_rule 0 = "winner" /\ legacy.rematch_rule 1 = "random".
Proof. split; reflexivity. Qed.

(** The only status check before a restart is made by the key handler: the
    restart command is issued on the key ["r"] while the game is finished,
    and in no other status. *)
Lemma updateGame_restart_gate (m : ui.Model) :
  ui.updateGame m (ui.KeyMsg "r") =
    Done (m, if Status (ui.Game m) =? "finished"
             then ui.restartCmd (ui.RoomCode m) else ui.nilCmd).
Proof.
  unfold ui.updateGame. simpl.
  destruct (Status (ui.Game m) =? "finished"); [reflexivity |].
  destruct (Status (ui.Game m) =? "waiting"); reflexivity.
Qed.

(** ** The order on room codes *)

Section string_order.

Lemma ascii_compare_refl (a : ascii) : Ascii.compare a a = Eq.
Proof. unfold Ascii.compare. apply N.compare_refl. Qed.

Lemma ascii_compare_lt_trans (a b c : ascii) :
  Ascii.compare a b = Lt -> Ascii.compare b c = Lt -> Ascii.compare a c = Lt.
Proof.
  unfold Ascii.compare. rewrite !N.compare_lt_iff. apply N.lt_trans.
Qed.

Lemma string_compare_refl (s : string) : String.compare s s = Eq.
Proof.
  induction s as [|a s IH]; simpl; [reflexivity |].
  by rewrite ascii_compare_refl.
Qed.

Lemma string_compare_lt_trans (s1 : string) :
  forall s2 s3 : string,
    String.compare s1 s2 = Lt -> String.compare s2 s3 = Lt ->
    String.compare s1 s3 = Lt.
Proof.
  induction s1 as [|a s1 IH]; intros [|b s2] [|c s3]; simpl;
    try discriminate; try reflexivity.
  destruct (Ascii.compare a b) eqn:Hab; try discriminate;
    destruct (Ascii.compare b c) eqn:Hbc; try discriminate; intros H12 H23.
  - apply Ascii.compare_eq_iff in Hab, Hbc. subst b c.
    rewrite ascii_compare_refl. by apply (IH s2).
  - apply Ascii.compare_eq_iff in Hab. subst b. by rewrite Hbc.
  - apply Ascii.compare_eq_iff in Hbc. subst c. by rewrite Hab.
  - by rewrite (ascii_compare_lt_trans a b c).
Qed.

Lemma string_ltb_lt (s1 s2 : string) :
  (s1 <? s2)%string = true <-> String.compare s1 s2 = Lt.
Proof. unfold String.ltb. destruct (String.compare s1 s2); split; congruence. Qed.

Lemma string_ltb_irrefl (s : string) : (s <? s)%string = false.
Proof. unfold String.ltb. by rewrite string_compare_refl. Qed.

Lemma string_ltb_trans (s1 s2 s3 : string) :
  (s1 <? s2)%string = true -> (s2 <? s3)%string = true ->
  (s1 <? s3)%string = true.
Proof. rewrite !string_ltb_lt. apply string_compare_lt_trans. Qed.

Lemma string_ltb_asym (s1 s2 : string) :
  (s1 <? s2)%string = true -> (s2 <? s1)%string = false.
Proof.
  unfold String.ltb. rewrite (String.compare_antisym s2 s1).
  by destruct (String.compare s1 s2).
Qed.

Lemma string_ltb_total (s1 s2 : string) :
  (s2 <? s1)%string = false -> s1 ≠ s2 -> (s1 <? s2)%string = true.
Proof.
  unfold String.ltb. rewrite (String.compare_antisym s2 s1).
  destruct (String.compare s1 s2) eqn:H12; simpl; try congruence.
  apply String.compare_eq_iff in H12. congruence.
Qed.

End string_order.

(** ** [sort.Slice] *)

Section sort_Slice.

Context {A : Type} (less : A -> A -> bool).

Lemma sort_insert_Permutation (x : A) (l : list A) :
  sort.insert less x l ≡ₚ x :: l.
Proof.
  induction l as [|y l IH]; simpl; [reflexivity |].
  destruct (less x y); [reflexivity |].
  rewrite IH. apply Permutation_swap.
Qed.

Lemma sort_Slice_Permutation (l : list A) : sort.Slice less l ≡ₚ l.
Proof.
  induction l as [|x l IH]; simpl; [reflexivity |].
  by rewrite sort_insert_Permutation, IH.
Qed.

(** Sorting by a string key that no two elements share gives a strictly
    ascending list. *)
Context (key : A -> string).
Hypothesis less_key : forall x y, less x y = (key x <? key y)%string.

Let lt (x y : A) : Prop := (key x <? key y)%string = true.

Lemma sort_insert_StronglySorted (x : A) (l : list A) :
  key x ∉ key <$> l ->
  StronglySorted lt l -> StronglySorted lt (sort.insert less x l).
Proof.
  intros Hx Hl. induction Hl as [|y l Hl IH Hy]; simpl.
  - repeat constructor.
  - rewrite fmap_cons in Hx. apply not_elem_of_cons in Hx as [Hxy Hxl].
    rewrite less_key. destruct (key x <? key y)%string eqn:Hless.
    + constructor; [by constructor |].
      constructor; [exact Hless |].
      eapply Forall_impl; [exact Hy |]. intros z Hz.
      by apply (string_ltb_trans (key x) (key y) (key z)).
    + constructor; [by apply IH |].
      rewrite sort_insert_Permutation. constructor; [| exact Hy].
      apply string_ltb_total; [exact Hless | congruence].
Qed.

Lemma sort_Slice_StronglySorted (l : list A) :
  NoDup (key <$> l) -> StronglySorted lt (sort.Slice less l).
Proof.
  induction l as [|x l IH]; simpl; [constructor |].
  rewrite NoDup_cons. intros [Hx Hl].
  apply sort_insert_StronglySorted; [| by apply IH].
  by rewrite sort_Slice_Permutation.
Qed.

End sort_Slice.

(** ** Listing the public rooms *)

Lemma publicRooms_range_public_of (entries : list (string * rawRoom)) :
  forall rooms : list Room,
    publicRooms_range entries rooms = (rooms ++ public_of entries)%list.
Proof.
  induction entries as [|[code raw] rest IH]; intros rooms; simpl.
  - by rewrite app_nil_r.
  - rewrite IH. destruct (raw_IsPublic raw); [by rewrite <- app_assoc | done].
Qed.

Lemma elem_of_public_of (entries : list (string * rawRoom)) (r : Room) :
  r ∈ public_of entries <->
  exists code raw, (code, raw) ∈ entries /\ raw_IsPublic raw = true /\
                   r = sanitizeRoom code raw.
Proof.
  unfold public_of. rewrite list_elem_of_In, in_flat_map. split.
  - intros ([code raw] & Hin & Hr). simpl in Hr.
    destruct (raw_IsPublic raw) eqn:Hpub; [| destruct Hr].
    destruct Hr as [<-|[]]. exists code, raw. by rewrite list_elem_of_In.
  - intros (code & raw & Hin & Hpub & ->). exists (code, raw).
    rewrite <- list_elem_of_In. split; [exact Hin |]. simpl. rewrite Hpub. by left.
Qed.

Lemma public_of_codes_sublist (entries : list (string * rawRoom)) :
  sublist (Code <$> public_of entries) (entries.*1).
Proof.
  induction entries as [|[code raw] rest IH]; [constructor |].
  change (public_of ((code, raw) :: rest))
    with ((if raw_IsPublic raw then [sanitizeRoom code raw] else [])
            ++ public_of rest)%list.
  rewrite !fmap_cons. simpl fst.
  destruct (raw_IsPublic raw); simpl app.
  - rewrite fmap_cons, sanitizeRoom_eq. simpl Code. by constructor.
  - by constructor.
Qed.

Lemma GetPublicRooms_in_Permutation (entries : list (string * rawRoom)) :
  GetPublicRooms_in entries ≡ₚ public_of entries.
Proof.
  unfold GetPublicRooms_in. rewrite sort_Slice_Permutation.
  by rewrite publicRooms_range_public_of.
Qed.

Lemma GetPublicRooms_in_sorted (entries : list (string * rawRoom)) :
  NoDup (entries.*1) -> StronglySorted code_lt (GetPublicRooms_in entries).
Proof.
  intros Hnodup. unfold GetPublicRooms_in.
  rewrite publicRooms_range_public_of. simpl.
  apply (sort_Slice_StronglySorted code_less Code); [reflexivity |].
  exact (sublist_NoDup _ _ Hnodup (public_of_codes_sublist entries)).
Qed.

Lemma code_lt_asym (a b : Room) : code_lt a b -> code_lt b a -> a = b.
Proof.
  unfold code_lt. intros Hab Hba.
  apply string_ltb_asym in Hab. congruence.
Qed.

(** C6.  Whatever order the iteration over the room map takes, every room
    [GetPublicRooms] returns has [IsPublic = true], and the list is in
    strictly ascending order of the room codes; the returned list is in fact
    the same for every iteration order.  The rooms on it are exactly the
    sanitized documents flagged public. *)
Theorem GetPublicRooms_public_and_sorted (st : store)
    (entries : list (string * rawRoom)) :
  entries ≡ₚ map_to_list st ->
  let rooms := GetPublicRooms_in entries in
  Forall (fun r => IsPublic r = true) rooms /\
  StronglySorted code_lt rooms /\
  rooms = GetPublicRooms st /\
  forall r : Room,
    r ∈ rooms <->
    exists code raw, st !! code = Some raw /\ raw_IsPublic raw = true /\
                     r = sanitizeRoom code raw.
Proof.
  intros Hperm rooms.
  assert (NoDup (entries.*1)) as Hnodup.
  { rewrite Hperm. apply NoDup_fst_map_to_list. }
  assert (forall r : Room,
             r ∈ rooms <->
             exists code raw, st !! code = Some raw /\ raw_IsPublic raw = true /\
                              r = sanitizeRoom code raw) as Hmem.
  { intros r. subst rooms.
    rewrite GetPublicRooms_in_Permutation, elem_of_public_of.
    split; intros (code & raw & Hin & Hrest); exists code, raw;
      (split; [| exact Hrest]).
    - rewrite Hperm in Hin. by apply elem_of_map_to_list.
    - rewrite Hperm. by apply elem_of_map_to_list. }
  split; [| split; [| split]].
  - apply Forall_forall. intros r Hr. apply Hmem in Hr.
    destruct Hr as (code & raw & _ & Hpub & ->).
    by rewrite sanitizeRoom_eq.
  - by apply GetPublicRooms_in_sorted.
  - apply (StronglySorted_unique_strong code_lt).
    + intros a b _ _. apply code_lt_asym.
    + by apply GetPublicRooms_in_sorted.
    + apply GetPublicRooms_in_sorted, NoDup_fst_map_to_list.
    + subst rooms. unfold GetPublicRooms.
      rewrite !GetPublicRooms_in_Permutation. unfold public_of.
      by rewrite Hperm.
  - exact Hmem.
Qed.

Example GetPublicRooms_threeRooms :
  Code <$> GetPublicRooms threeRooms = ["AB3D"; "K7QP"; "ZZ99"] /\
  Code <$> GetPublicRooms_in (reverse (map_to_list threeRooms))
    = ["AB3D"; "K7QP"; "ZZ99"].
Proof. split; vm_compute; reflexivity. Qed.

Lemma GetPublicRooms_public_and_sorted_witness :
  let rooms := GetPublicRooms_in (reverse (map_to_list threeRooms)) in
  Forall (fun r => IsPublic r = true) rooms /\
  StronglySorted code_lt rooms /\
  rooms = GetPublicRooms threeRooms.
Proof.
  destruct (GetPublicRooms_public_and_sorted threeRooms
              (reverse (map_to_list threeRooms))) as (Hpub & Hsorted & Heq & _).
  - apply reverse_Permutation.
  - split; [exact Hpub |]. split; [exact Hsorted | exact Heq].
Defined.

(** ** Winner detection in the single-file server *)

Lemma board_get_nat (b : vec string 9) (i : nat) :
  i < 9 -> board_get b (Z.of_nat i) = Done (cell b i).
Proof.
  intros Hi. unfold board_get, cell.
  destruct (fin9_of_nat i) as [k|] eqn:Hk.
  - apply fin9_of_nat_Some in Hk. subst i.
    rewrite (proj2 (fin9_of_Z_Some _ k) eq_refl).
    by rewrite (proj1 (vlookup_lookup b k (b !!! k)) eq_refl).
  - apply fin9_of_nat_None in Hk. lia.
Qed.

Lemma triple_wonb_spec (b : vec string 9) (t : nat * nat * nat) :
  triple_wonb b t = true <-> triple_won b t.
Proof.
  unfold triple_wonb, triple_won.
  rewrite !andb_true_iff, negb_true_iff, !String.eqb_eq, String.eqb_neq.
  tauto.
Qed.

Lemma winning_in_board (b : vec string 9) (t : nat * nat * nat) :
  in_board t -> legacy.winning b (triple_to_Z t) = Done (triple_wonb b t).
Proof.
  destruct t as [[i j] k]. intros (Hi & Hj & Hk). simpl in *.
  unfold legacy.winning, triple_to_Z, triple_wonb. simpl.
  rewrite (board_get_nat b i), (board_get_nat b j), (board_get_nat b k) by done.
  simpl.
  destruct (cell b i =? " "); simpl; [reflexivity |].
  destruct (cell b i =? cell b j); reflexivity.
Qed.

(** The loop returns the first cell of the first triple that is won. *)
Lemma checkWinner_range_find (b : vec string 9) (ts : list (nat * nat * nat)) :
  Forall in_board ts ->
  legacy.checkWinner_range b (triple_to_Z <$> ts) =
    Done (match List.find (triple_wonb b) ts with
          | Some t => cell b t.1.1
          | None => ""
          end).
Proof.
  induction 1 as [|t ts Ht Hts IH]; [reflexivity |].
  rewrite fmap_cons.
  change (legacy.checkWinner_range b (triple_to_Z t :: (triple_to_Z <$> ts)))
    with (legacy.winning b (triple_to_Z t) ≫= fun hit : bool =>
          if hit then board_get b ((triple_to_Z t).1.1)
          else legacy.checkWinner_range b (triple_to_Z <$> ts)).
  rewrite winning_in_board by done.
  change (List.find (triple_wonb b) (t :: ts))
    with (if triple_wonb b t then Some t else List.find (triple_wonb b) ts).
  destruct (triple_wonb b t); simpl.
  - apply board_get_nat, Ht.
  - exact IH.
Qed.

Lemma find_first {A : Type} (p : A -> bool) (l : list A) :
  forall (n : nat) (x : A),
    l !! n = Some x -> p x = true ->
    (forall m y, m < n -> l !! m = Some y -> p y = false) ->
    List.find p l = Some x.
Proof.
  induction l as [|a l IH]; intros n x Hn Hx Hbefore; [discriminate |].
  destruct n as [|n]; simpl in *.
  - injection Hn as ->. by rewrite Hx.
  - rewrite (Hbefore 0 a) by (lia || done).
    apply (IH n); [done.. |].
    intros m y Hm Hy. apply (Hbefore (S m) y); [lia | done].
Qed.

Lemma find_nowhere {A : Type} (p : A -> bool) (l : list A) :
  (forall x, x ∈ l -> p x = false) -> List.find p l = None.
Proof.
  induction l as [|a l IH]; intros Hall; simpl; [reflexivity |].
  rewrite (Hall a) by (by left). apply IH. intros x Hx. apply Hall. by right.
Qed.

Lemma wins_scan_order : legacy.wins = triple_to_Z <$> scan_order.
Proof. reflexivity. Qed.

Lemma scan_order_in_board : Forall in_board scan_order.
Proof. repeat constructor. Qed.

Lemma checkWinner_find (b : vec string 9) :
  legacy.checkWinner b =
    Done (match List.find (triple_wonb b) scan_order with
          | Some t => cell b t.1.1
          | None => ""
          end).
Proof.
  unfold legacy.checkWinner. rewrite wins_scan_order.
  apply checkWinner_range_find, scan_order_in_board.
Qed.

(** C5.  [checkWinner] scans the eight winning triples in the fixed order
    rows top-to-bottom, columns left-to-right, then the two diagonals.  It
    returns the mark in the first triple of that order whose three cells
    are equal and not the empty cell [" "], and [""] (no winner) if no
    triple is such; it never panics. *)
Theorem checkWinner_first_in_scan_order (b : vec string 9) :
  legacy.wins = triple_to_Z <$> scan_order /\
  length scan_order = 8 /\
  (forall (n : nat) (t : nat * nat * nat),
      scan_order !! n = Some t ->
      triple_won b t ->
      (forall m t', m < n -> scan_order !! m = Some t' -> ~ triple_won b t') ->
      legacy.checkWinner b = Done (cell b t.1.1)) /\
  ((forall t, t ∈ scan_order -> ~ triple_won b t) ->
   legacy.checkWinner b = Done "").
Proof.
  split; [reflexivity |]. split; [reflexivity |].
  pose proof (checkWinner_find b) as Hfind.
  split.
  - intros n t Hn Hwon Hbefore. rewrite Hfind.
    rewrite (find_first _ _ n t); [reflexivity | exact Hn | |].
    + by apply triple_wonb_spec.
    + intros m y Hm Hy. apply not_true_is_false.
      rewrite triple_wonb_spec. by apply (Hbefore m).
  - intros Hnone. rewrite Hfind.
    rewrite find_nowhere; [reflexivity |].
    intros t Ht. apply not_true_is_false.
    rewrite triple_wonb_spec. by apply Hnone.
Qed.

Lemma checkWinner_first_in_scan_order_witness :
  legacy.checkWinner columnAndDiagonal = Done "X" /\
  legacy.checkWinner emptyBoard = Done "".
Proof.
  split.
  - destruct (checkWinner_first_in_scan_order columnAndDiagonal)
      as (_ & _ & Hfirst & _).
    apply (Hfirst 3 (0, 3, 6)).
    + reflexivity.
    + repeat split; discriminate.
    + intros m t' Hm Ht' Hwon. apply triple_wonb_spec in Hwon.
      do 3 (destruct m as [|m]; [injection Ht' as <-; discriminate Hwon |]).
      lia.
  - destruct (checkWinner_first_in_scan_order emptyBoard) as (_ & _ & _ & Hnone).
    apply Hnone. intros t Ht [Hmark _]. apply Hmark.
    apply list_elem_of_In in Ht. simpl in Ht.
    repeat (destruct Ht as [<- | Ht]; [reflexivity |]). destruct Ht.
Defined.

(** The winner the modelled package [game] reports is the one [checkWinner]
    of the single-file server returns. *)
Lemma vlookup_cell (b : vec string 9) (k : fin 9) : b !!! k = cell b (fin_to_nat k).
Proof.
  unfold cell. by rewrite (proj1 (vlookup_lookup b k (b !!! k)) eq_refl).
Qed.

Lemma filled_triple_wonb (b : vec string 9) (w : fin 9 * fin 9 * fin 9) :
  game.filled b w = triple_wonb b (triple_of_fin w).
Proof.
  destruct w as [[i j] k]. unfold game.filled, triple_wonb, triple_of_fin.
  simpl. by rewrite !vlookup_cell.
Qed.

Lemma find_fmap {A B : Type} (f : A -> B) (p : B -> bool) (l : list A) :
  List.find p (f <$> l) = f <$> List.find (fun x => p (f x)) l.
Proof.
  induction l as [|a l IH]; [reflexivity |].
  rewrite fmap_cons. simpl. destruct (p (f a)); [reflexivity | exact IH].
Qed.

Lemma find_pointwise {A : Type} (p q : A -> bool) (l : list A) :
  (forall x, p x = q x) -> List.find p l = List.find q l.
Proof.
  intros Hpq. induction l as [|a l IH]; simpl; [reflexivity |].
  rewrite Hpq, IH. reflexivity.
Qed.

Lemma game_CheckWinner_checkWinner (b : vec string 9) :
  legacy.checkWinner b = Done (game.CheckWinner b).1.
Proof.
  rewrite checkWinner_find. unfold game.CheckWinner.
  change scan_order with (triple_of_fin <$> game.lines).
  rewrite find_fmap.
  rewrite (find_pointwise _ (game.filled b))
    by (intros w; symmetry; apply filled_triple_wonb).
  destruct (List.find (game.filled b) game.lines) as [w|]; simpl; [| reflexivity].
  by rewrite vlookup_cell.
Qed.

(** ** Placing a mark *)

(** [UpdateMove] never looks at the target cell: for an index in range it
    stores the turn's mark there. *)
Lemma UpdateMove_logic_Board (idx : Z) (r : Room) (k : fin 9) :
  fin9_of_Z idx = Some k ->
  exists r' : Room,
    UpdateMove_logic idx r = Done r' /\
    Board r' = vinsert k (Turn r) (Board r).
Proof.
  intros Hk. unfold UpdateMove_logic, board_set. rewrite Hk. simpl.
  destruct (game.CheckWinner (vinsert k (Turn r) (Board r))) as [winner line].
  destruct (winner =? ""); simpl.
  - destruct (game.CheckDraw (vinsert k (Turn r) (Board r)));
      [| destruct (Turn r =? "X")]; eexists; split; reflexivity.
  - destruct (winner =? "X"); eexists; split; reflexivity.
Qed.




(** The cursor stays inside the 3x3 grid. *)
Lemma updateGame_cursor_bounds (m m' : ui.Model) (msg : ui.Msg) (c : ui.Cmd) :
  ui.updateGame m msg = Done (m', c) ->
  (0 <= ui.CursorR m <= 2)%Z -> (0 <= ui.CursorC m <= 2)%Z ->
  (0 <= ui.CursorR m' <= 2)%Z /\ (0 <= ui.CursorC m' <= 2)%Z.
Proof.
  intros Hrun HR HC. unfold ui.updateGame in Hrun.
  destruct msg as [r | key |].
  - repeat match type of Hrun with
           | context [if ?b then _ else _] => destruct b
           end; injection Hrun as <- <-; simpl; lia.
  - repeat match type of Hrun with
           | context [if ?b then _ else _] => destruct b eqn:?
           | context [board_get ?b ?i] => destruct (board_get b i); simpl in Hrun
           end; try discriminate; injection Hrun as <- <-; simpl; lia.
  - injection Hrun as <- <-. lia.
Qed.



(** * Further properties of the store adapter *)

(** ** What is written is what is read *)

Lemma sanitizeBoard_marshal (b : vec string 9) :
  sanitizeBoard 0 (VString <$> vec_to_list b) emptyBoard = b.
Proof. inv_vec b. intros. reflexivity. Qed.

Lemma sanitizeRoom_marshalRoom (code : string) (r : Room) :
  sanitizeRoom code (marshalRoom r) =
    mkRoom code (Board r) (Turn r) (PlayerX r) (PlayerO r) (PlayerXName r)
      (PlayerOName r) (IsPublic r) (Winner r) (WinningLine r) (Status r)
      (WinsX r) (WinsO r).
Proof. rewrite sanitizeRoom_eq. simpl. by rewrite sanitizeBoard_marshal. Qed.



(** X3.  [GetRoom] returns a room only for a stored document with a
    creator; the room carries the code that was asked for, whatever code
    the document holds, and its [PlayerX] is not empty.  For a code that is
    not in the store the answer is the error "room does not exist". *)
Theorem GetRoom_only_rooms_with_creator (st : store) (code : string) :
  (forall r : Room,
      GetRoom code st = Ok r ->
      Code r = code /\ PlayerX r ≠ "" /\
      exists raw : rawRoom, st !! code = Some raw /\ r = sanitizeRoom code raw) /\
  (st !! code = None -> GetRoom code st = Err (Errorf "room does not exist")).
Proof.
  split.
  - unfold GetRoom, ref_Get. intros r.
    destruct (st !! code) as [raw|] eqn:Hst; simpl.
    + destruct (String.eqb_spec (raw_PlayerX raw) "") as [|Hx]; [discriminate |].
      intros [= <-]. rewrite sanitizeRoom_eq. simpl.
      split; [reflexivity |]. split; [exact Hx |].
      exists raw. split; [reflexivity |]. by rewrite sanitizeRoom_eq.
    + discriminate.
  - intros Hst. unfold GetRoom, ref_Get. by rewrite Hst.
Qed.

Lemma GetRoom_only_rooms_with_creator_witness :
  (forall r : Room,
      GetRoom "AB3D" mixedStore = Ok r -> Code r = "AB3D" /\ PlayerX r ≠ "") /\
  GetRoom "NONE" mixedStore = Err (Errorf "room does not exist").
Proof.
  destruct (GetRoom_only_rooms_with_creator mixedStore "AB3D") as (Hok & _).
  destruct (GetRoom_only_rooms_with_creator mixedStore "NONE") as (_ & Hnone).
  split.
  - intros r Hr. destruct (Hok r Hr) as (Hc & Hx & _). by split.
  - apply Hnone. vm_compute. reflexivity.
Defined.

(** ** Every operation leaves the store decodable *)

Lemma strict_doc_marshalRoom (r : Room) : strict_doc (marshalRoom r).
Proof. exists r. apply unmarshalRoom_marshalRoom. Qed.

(** Decoding looks at the board only. *)
Lemma strict_doc_same_board (doc doc' : rawRoom) :
  raw_Board doc' = raw_Board doc -> strict_doc doc -> strict_doc doc'.
Proof.
  intros Hb (r & Hr). unfold strict_doc, unmarshalRoom in *. rewrite Hb.
  destruct (unmarshalBoard 0 (raw_Board doc) (vreplicate 9 "")); simpl in *;
    [eauto | discriminate].
Qed.

Lemma strict_doc_zeroRaw : strict_doc zeroRaw.
Proof. eexists. reflexivity. Qed.

Lemma strict_store_ref_Get (st : store) (code : string) :
  strict_store st -> strict_doc (ref_Get st code).
Proof.
  intros Hst. unfold ref_Get. destruct (st !! code) as [doc|] eqn:Hdoc; simpl.
  - by apply (Hst code).
  - apply strict_doc_zeroRaw.
Qed.

Lemma strict_store_insert (st : store) (code : string) (doc : rawRoom) :
  strict_store st -> strict_doc doc -> strict_store (<[code := doc]> st).
Proof.
  intros Hst Hdoc code' doc'. rewrite lookup_insert.
  destruct (decide (code = code')); [intros [= <-]; exact Hdoc | apply Hst].
Qed.

Lemma strict_store_Transaction (fn : rawRoom -> result rawRoom) (code : string)
    (st : store) :
  (forall tn doc, strict_doc tn -> fn tn = Ok doc -> strict_doc doc) ->
  strict_store st -> strict_store (Transaction fn code st).2.
Proof.
  intros Hfn Hst. unfold Transaction.
  pose proof (strict_store_ref_Get st code Hst) as Htn.
  destruct (fn (ref_Get st code)) as [doc|e] eqn:Hrun; simpl; [| exact Hst].
  apply strict_store_insert; [exact Hst |]. by apply (Hfn (ref_Get st code)).
Qed.

Lemma exec_strict_store (c : call) (st st' : store) :
  strict_store st -> exec c st = Done st' -> strict_store st'.
Proof.
  intros Hst. destruct c as [code pid name public | code pid name
                            | code pid isHost | code pid idx r | code]; simpl.
  - intros [= <-]. apply strict_store_insert; [exact Hst |].
    apply strict_doc_marshalRoom.
  - intros [= <-]. apply strict_store_Transaction; [| exact Hst].
    intros tn doc Htn. unfold JoinRoom_fn.
    destruct (raw_PlayerX tn =? ""); [discriminate |].
    destruct (negb (raw_PlayerO tn =? "") && negb (raw_PlayerO tn =? pid));
      [discriminate |].
    intros [= <-]. by apply (strict_doc_same_board tn).
  - intros [= <-]. unfold LeaveRoom. destruct isHost; simpl.
    + intros code' doc' Hdoc'. apply lookup_delete_Some in Hdoc' as [_ Hdoc'].
      by apply (Hst code').
    + apply strict_store_insert; [exact Hst |].
      apply (strict_doc_same_board (ref_Get st code)); [reflexivity |].
      by apply strict_store_ref_Get.
  - unfold UpdateMove.
    destruct (UpdateMove_logic idx r) as [r'|]; simpl; [| discriminate].
    intros [= <-]. apply strict_store_insert; [exact Hst |].
    apply strict_doc_marshalRoom.
  - intros [= <-]. apply strict_store_Transaction; [| exact Hst].
    intros tn doc _. unfold RestartGame_fn.
    destruct (unmarshalRoom tn) as [r|e]; simpl; [| discriminate].
    intros [= <-]. apply strict_doc_marshalRoom.
Qed.

Lemma RestartGame_strict_store (st : store) (code : string) :
  strict_store st -> (RestartGame code st).1 = None.
Proof.
  intros Hst. destruct (strict_store_ref_Get st code Hst) as (r & Hr).
  unfold RestartGame, Transaction, RestartGame_fn. by rewrite Hr.
Qed.

(** X2.  Starting from a store whose documents all decode into the strict
    [Room] (the empty store is one), every sequence of [CreateRoom],
    [JoinRoom], [LeaveRoom], [UpdateMove] and [RestartGame] calls that does
    not panic leaves such a store; on it [RestartGame] never fails, for any
    code. *)
Theorem db_calls_keep_store_strict (cs : list call) :
  forall st st' : store,
    strict_store st ->
    exec_all cs st = Done st' ->
    strict_store st' /\ forall code : string, (RestartGame code st').1 = None.
Proof.
  induction cs as [|c cs IH]; intros st st' Hst; simpl.
  - intros [= <-]. split; [exact Hst |].
    intros code. by apply RestartGame_strict_store.
  - destruct (exec c st) as [st1|] eqn:Hc; simpl; [| discriminate].
    apply IH. by apply (exec_strict_store c st).
Qed.

Lemma db_calls_keep_store_strict_witness :
  (RestartGame "AB3D"
     (<["AB3D" := marshalRoom overwrittenRoom]>
        (<["AB3D" := joinedDoc]> (<["AB3D" := freshDoc]> ∅)))).1 = None.
Proof.
  refine (proj2 (db_calls_keep_store_strict
           [callCreateRoom "AB3D" "p1" "Alice" true;
            callJoinRoom "AB3D" "p2" "Bob";
            callUpdateMove "AB3D" "p2" 1 midGameRoom] ∅ _ _ _) "AB3D").
  - intros code doc Hdoc. rewrite lookup_empty in Hdoc. discriminate.
  - reflexivity.
Defined.

(** ** The listing as a function of the public documents *)

Lemma elem_of_GetPublicRooms (st : store) (r : Room) :
  r ∈ GetPublicRooms st <->
  exists code raw, st !! code = Some raw /\ raw_IsPublic raw = true /\
                   r = sanitizeRoom code raw.
Proof.
  unfold GetPublicRooms. rewrite GetPublicRooms_in_Permutation, elem_of_public_of.
  split; intros (code & raw & Hin & Hrest); exists code, raw;
    (split; [| exact Hrest]); by apply elem_of_map_to_list.
Qed.

Lemma GetPublicRooms_sorted (st : store) : StronglySorted code_lt (GetPublicRooms st).
Proof. apply GetPublicRooms_in_sorted, NoDup_fst_map_to_list. Qed.

Lemma GetPublicRooms_NoDup (st : store) : NoDup (GetPublicRooms st).
Proof.
  unfold GetPublicRooms. rewrite GetPublicRooms_in_Permutation.
  apply (NoDup_fmap_1 Code).
  exact (sublist_NoDup _ _ (NoDup_fst_map_to_list st)
           (public_of_codes_sublist (map_to_list st))).
Qed.

(** Two stores with the same public documents have the same listing. *)
Lemma GetPublicRooms_same_public (st st' : store) :
  (forall code raw, raw_IsPublic raw = true ->
                    st !! code = Some raw <-> st' !! code = Some raw) ->
  GetPublicRooms st = GetPublicRooms st'.
Proof.
  intros Hsame. apply (StronglySorted_unique_strong code_lt).
  - intros a b _ _. apply code_lt_asym.
  - apply GetPublicRooms_sorted.
  - apply GetPublicRooms_sorted.
  - apply NoDup_Permutation; [apply GetPublicRooms_NoDup .. |].
    intros r. rewrite !elem_of_GetPublicRooms.
    split; intros (code & raw & Hin & Hpub & ->); exists code, raw;
      (split; [by apply (Hsame code raw Hpub) | by split]).
Qed.

(** ** Leaving a room *)



(** X5.  When the guest leaves an existing room, the slot is free again:
    the room read back has an empty [PlayerO] and the status ["waiting"],
    keeps its host, board, turn, winner and scores (and the name of the
    guest who left), and a join by any id then succeeds.  The [pid] that is
    passed plays no part. *)
Theorem LeaveRoom_guest_reopens (st : store) (code pid : string) (raw : rawRoom) :
  st !! code = Some raw ->
  raw_PlayerX raw ≠ "" ->
  let st' := (LeaveRoom code pid false st).2 in
  let before := sanitizeRoom code raw in
  GetRoom code st' =
    Ok (mkRoom code (Board before) (Turn before) (PlayerX before) ""
          (PlayerXName before) (PlayerOName before) (IsPublic before)
          (Winner before) (WinningLine before) "waiting"
          (WinsX before) (WinsO before)) /\
  (forall p n : string, (JoinRoom code p n st').1 = None) /\
  (forall p n : string,
      exists r' : Room,
        GetRoom code (JoinRoom code p n st').2 = Ok r' /\
        PlayerO r' = p /\ PlayerOName r' = n /\ Status r' = "playing").
Proof.
  intros Hst Hx st' before.
  set (doc := set_raw_Status "waiting" (set_raw_PlayerO "" raw)).
  assert (st' = <[code := doc]> st) as ->.
  { subst st' doc. unfold LeaveRoom, ref_Get. by rewrite Hst. }
  assert (forall p n,
             JoinRoom code p n (<[code := doc]> st) =
               (None, <[code := set_raw_Status "playing"
                                  (set_raw_PlayerOName n (set_raw_PlayerO p doc))]>
                        (<[code := doc]> st))) as Hjoin.
  { intros p n. apply (Transaction_commit _ _ _ doc); [apply lookup_insert_eq |].
    apply JoinRoom_fn_joins; [exact Hx | by left]. }
  split; [| split].
  - rewrite (GetRoom_found _ _ doc); [| apply lookup_insert_eq | exact Hx].
    subst before. by rewrite !sanitizeRoom_eq.
  - intros p n. by rewrite Hjoin.
  - intros p n. rewrite Hjoin. simpl. eexists. split.
    + apply GetRoom_found; [apply lookup_insert_eq | exact Hx].
    + rewrite sanitizeRoom_eq. repeat split; reflexivity.
Qed.

Lemma LeaveRoom_guest_reopens_witness :
  (JoinRoom "AB3D" "p3" "Carol" (LeaveRoom "AB3D" "p2" false joinedStore).2).1
    = None.
Proof.
  destruct (LeaveRoom_guest_reopens joinedStore "AB3D" "p2" joinedDoc)
    as (_ & Hjoin & _); [vm_compute; reflexivity | discriminate |].
  apply Hjoin.
Defined.

(** X6.  A guest's leave for a code that is not in the store does not fail:
    it creates a document with the two fields it sets.  That document has
    no creator, so [GetRoom] still answers "room does not exist", a join
    fails with "room not found", and the listing is what it was. *)
Theorem LeaveRoom_guest_missing_room (st : store) (code pid : string) :
  st !! code = None ->
  let st' := (LeaveRoom code pid false st).2 in
  (LeaveRoom code pid false st).1 = None /\
  st' !! code = Some (set_raw_Status "waiting" zeroRaw) /\
  GetRoom code st' = Err (Errorf "room does not exist") /\
  (forall p n : string,
      JoinRoom code p n st' = (Some (Errorf "room not found"), st')) /\
  GetPublicRooms st' = GetPublicRooms st.
Proof.
  intros Hst st'.
  assert (st' = <[code := set_raw_Status "waiting" zeroRaw]> st) as ->.
  { subst st'. unfold LeaveRoom, ref_Get. by rewrite Hst. }
  split; [reflexivity |]. split; [apply lookup_insert_eq |].
  split; [| split].
  - unfold GetRoom. by rewrite ref_Get_insert.
  - intros p n.
    apply (Transaction_abort _ _ _ (set_raw_Status "waiting" zeroRaw));
      [apply lookup_insert_eq | reflexivity].
  - apply GetPublicRooms_same_public. intros code' raw Hpub.
    rewrite lookup_insert. destruct (decide (code = code')) as [<-|]; [| done].
    rewrite Hst. split; [| discriminate].
    intros [= <-]. discriminate Hpub.
Qed.

Lemma LeaveRoom_guest_missing_room_witness :
  GetRoom "GONE" (LeaveRoom "GONE" "p2" false threeRooms).2
    = Err (Errorf "room does not exist") /\
  GetPublicRooms (LeaveRoom "GONE" "p2" false threeRooms).2
    = GetPublicRooms threeRooms.
Proof.
  destruct (LeaveRoom_guest_missing_room threeRooms "GONE" "p2")
    as (_ & _ & Hget & _ & Hlist); [vm_compute; reflexivity |].
  split; [exact Hget | exact Hlist].
Defined.

(** ** Creating and listing *)



(** ** What a move changes *)



(** * Further properties of the game screen *)

Lemma board_get_in_grid (b : vec string 9) (R C : Z) :
  (0 <= R <= 2)%Z -> (0 <= C <= 2)%Z ->
  exists k : fin 9,
    fin9_of_Z (R * 3 + C) = Some k /\ board_get b (R * 3 + C) = Done (b !!! k).
Proof.
  intros HR HC. unfold board_get.
  destruct (fin9_of_Z (R * 3 + C)) as [k|] eqn:Hk.
  - by exists k.
  - apply fin9_of_Z_None in Hk. lia.
Qed.

(** The place key, in a game that is neither finished nor waiting. *)
Lemma updateGame_place_key (m : ui.Model) (key : string) (k : fin 9) :
  key = " " \/ key = "enter" ->
  Status (ui.Game m) ≠ "finished" -> Status (ui.Game m) ≠ "waiting" ->
  fin9_of_Z (ui.CursorR m * 3 + ui.CursorC m) = Some k ->
  ui.updateGame m (ui.KeyMsg key) =
    Done (m,
          if (Turn (ui.Game m) =? ui.MySide m) && (Board (ui.Game m) !!! k =? " ")
          then ui.moveCmd (ui.RoomCode m) (ui.SessionID m)
                 (ui.CursorR m * 3 + ui.CursorC m) (ui.Game m)
          else ui.nilCmd).
Proof.
  intros Hkey Hfin Hwait Hk. apply String.eqb_neq in Hfin, Hwait.
  unfold ui.updateGame.
  destruct Hkey as [-> | ->]; simpl; rewrite Hfin, Hwait;
    (destruct (Turn (ui.Game m) =? ui.MySide m); simpl; [| reflexivity]);
    unfold board_get; rewrite Hk; simpl;
    destruct (Board (ui.Game m) !!! k =? " "); reflexivity.
Qed.

Lemma UpdateMove_logic_PlayerX (idx : Z) (r r' : Room) :
  UpdateMove_logic idx r = Done r' -> PlayerX r' = PlayerX r.
Proof.
  unfold UpdateMove_logic.
  destruct (board_set (Board r) idx (Turn r)) as [board|]; simpl; [| discriminate].
  destruct (game.CheckWinner board) as [winner line].
  destruct (winner =? ""); simpl.
  - destruct (game.CheckDraw board); [| destruct (Turn r =? "X")];
      by intros [= <-].
  - destruct (winner =? "X"); by intros [= <-].
Qed.

(** X9.  A legal move, end to end.  When it is the player's turn and the
    cell under the cursor is empty, the place key leaves the session as it
    is and issues a move; once that command has run, the room read back
    from the store has the player's mark in that cell and every other cell
    as in the session's copy of the room. *)
Theorem legal_move_is_stored (st : store) (m : ui.Model) (key : string) (k : fin 9) :
  key = " " \/ key = "enter" ->
  Status (ui.Game m) ≠ "finished" -> Status (ui.Game m) ≠ "waiting" ->
  fin9_of_Z (ui.CursorR m * 3 + ui.CursorC m) = Some k ->
  Turn (ui.Game m) = ui.MySide m ->
  Board (ui.Game m) !!! k = " " ->
  PlayerX (ui.Game m) ≠ "" ->
  exists (c : ui.Cmd) (st' : store) (r' : Room),
    ui.updateGame m (ui.KeyMsg key) = Done (m, c) /\
    ui.runCmd c st = Done st' /\
    GetRoom (ui.RoomCode m) st' = Ok r' /\
    Board r' !!! k = ui.MySide m /\
    (forall j : fin 9, j ≠ k -> Board r' !!! j = Board (ui.Game m) !!! j) /\
    (forall other : string, other ≠ ui.RoomCode m -> st' !! other = st !! other).
Proof.
  intros Hkey Hfin Hwait Hk Hturn Hcell Hx.
  destruct (UpdateMove_logic_Board _ (ui.Game m) k Hk) as (r1 & Hlogic & Hboard).
  pose proof (UpdateMove_logic_PlayerX _ _ _ Hlogic) as Hx1.
  exists (ui.moveCmd (ui.RoomCode m) (ui.SessionID m)
            (ui.CursorR m * 3 + ui.CursorC m) (ui.Game m)).
  exists (<[ui.RoomCode m := marshalRoom r1]> st).
  exists (sanitizeRoom (ui.RoomCode m) (marshalRoom r1)).
  split; [| split; [| split; [| split; [| split]]]].
  - rewrite (updateGame_place_key m key k) by done.
    apply String.eqb_eq in Hturn, Hcell. by rewrite Hturn, Hcell.
  - simpl. unfold UpdateMove. by rewrite Hlogic.
  - apply GetRoom_found; [apply lookup_insert_eq |]. simpl. congruence.
  - rewrite sanitizeRoom_marshalRoom. simpl. rewrite Hboard, <- Hturn.
    apply vlookup_insert.
  - intros j Hj. rewrite sanitizeRoom_marshalRoom. simpl. rewrite Hboard.
    by apply vlookup_insert_ne.
  - intros other Hne. by apply lookup_insert_ne.
Qed.

Lemma legal_move_is_stored_witness :
  exists (c : ui.Cmd) (st' : store) (r' : Room),
    ui.updateGame readyModel (ui.KeyMsg "enter") = Done (readyModel, c) /\
    ui.runCmd c joinedStore = Done st' /\
    GetRoom "AB3D" st' = Ok r' /\
    Board r' !!! 2%fin = "O".
Proof.
  destruct (legal_move_is_stored joinedStore readyModel "enter" 2%fin)
    as (c & st' & r' & Hkey & Hrun & Hget & Hcell & _);
    [by right | discriminate | discriminate | reflexivity | reflexivity
    | reflexivity | discriminate |].
  exists c, st', r'. by repeat split.
Defined.

(** X10.  The game screen issues a command only under its guard.  A restart
    is issued only on the key ["r"] in a finished game; a move only in a
    game that is neither finished nor waiting, on the player's own turn and
    onto a cell that holds [" "], for the cell under the cursor and with
    the session's copy of the room; a poll only in answer to a room update
    whose room has a creator.  The session is not changed by a key that
    issues a restart or a move. *)
Theorem updateGame_commands_are_guarded (m m' : ui.Model) (msg : ui.Msg)
    (c : ui.Cmd) :
  ui.updateGame m msg = Done (m', c) ->
  match c with
  | ui.nilCmd => True
  | ui.pollCmd code =>
      exists r : Room,
        msg = ui.roomUpdateMsg r /\ ui.Game m' = r /\ PlayerX r ≠ "" /\
        code = ui.RoomCode m
  | ui.restartCmd code =>
      m' = m /\ msg = ui.KeyMsg "r" /\ code = ui.RoomCode m /\
      Status (ui.Game m) = "finished"
  | ui.moveCmd code pid idx r =>
      m' = m /\ code = ui.RoomCode m /\ pid = ui.SessionID m /\
      r = ui.Game m /\ idx = (ui.CursorR m * 3 + ui.CursorC m)%Z /\
      Status (ui.Game m) ≠ "finished" /\ Status (ui.Game m) ≠ "waiting" /\
      Turn (ui.Game m) = ui.MySide m /\
      board_get (Board (ui.Game m)) idx = Done " "
  end.
Proof.
  intros Hrun. unfold ui.updateGame in Hrun.
  destruct msg as [r | key |].
  - simpl in Hrun.
    destruct (ui.SessionState_eqb (ui.State m) ui.StateLobby
              && negb (PlayerO r =? "")); simpl in Hrun;
      destruct (String.eqb_spec (PlayerX r) "") as [Hx|Hx];
      injection Hrun as <- <-; try exact I;
      exists r; by repeat split.
  - destruct ((key =? "q") || (key =? "esc")); [by injection Hrun as <- <- |].
    destruct (String.eqb_spec (Status (ui.Game m)) "finished") as [Hfin|Hfin].
    { destruct (String.eqb_spec key "r") as [->|];
        injection Hrun as <- <-; [by repeat split | exact I]. }
    destruct (String.eqb_spec (Status (ui.Game m)) "waiting") as [Hwait|Hwait];
      [by injection Hrun as <- <- |].
    destruct (ui.key_in key ["up"; "k"]); [by injection Hrun as <- <- |].
    destruct (ui.key_in key ["down"; "j"]); [by injection Hrun as <- <- |].
    destruct (ui.key_in key ["left"; "h"]); [by injection Hrun as <- <- |].
    destruct (ui.key_in key ["right"; "l"]); [by injection Hrun as <- <- |].
    destruct (ui.key_in key [" "; "enter"]); [| by injection Hrun as <- <-].
    destruct (String.eqb_spec (Turn (ui.Game m)) (ui.MySide m)) as [Hturn|];
      [| by injection Hrun as <- <-].
    destruct (board_get (Board (ui.Game m)) (ui.CursorR m * 3 + ui.CursorC m))
      as [cell|] eqn:Hcell; simpl in Hrun; [| discriminate].
    destruct (String.eqb_spec cell " ") as [->|];
      injection Hrun as <- <-; [by repeat split | exact I].
  - by injection Hrun as <- <-.
Qed.

Lemma updateGame_commands_are_guarded_witness :
  Turn (ui.Game readyModel) = ui.MySide readyModel /\
  board_get (Board (ui.Game readyModel)) 2 = Done " ".
Proof.
  pose proof (updateGame_commands_are_guarded readyModel readyModel
                (ui.KeyMsg "enter")
                (ui.moveCmd "AB3D" "p2" 2 midGameRoom) eq_refl)
    as (_ & _ & _ & _ & _ & _ & _ & Hturn & Hcell).
  split; [exact Hturn | exact Hcell].
Defined.

(** One step of the game screen with the cursor on the grid does not panic. *)
Lemma updateGame_in_grid (m : ui.Model) (msg : ui.Msg) :
  in_grid m -> exists out, ui.updateGame m msg = Done out /\ in_grid out.1.
Proof.
  intros [HR HC].
  assert (exists out, ui.updateGame m msg = Done out) as [[m' c] Hrun].
  { unfold ui.updateGame. destruct msg as [r | key |]; [| | eauto].
    - simpl. destruct (_ && _); simpl; destruct (PlayerX r =? ""); eauto.
    - destruct (board_get_in_grid (Board (ui.Game m)) (ui.CursorR m)
                  (ui.CursorC m) HR HC) as (k & _ & Hget).
      rewrite Hget. simpl.
      repeat match goal with
             | |- context [if ?b then _ else _] => destruct b
             end; eauto. }
  exists (m', c). split; [exact Hrun |].
  exact (updateGame_cursor_bounds m m' msg c Hrun HR HC).
Qed.

(** X11.  The game screen keeps the cursor on the 3x3 grid and never
    panics: from a session whose cursor is on the grid (as it is at (1,1)
    in a new session), every sequence of room updates and keys is handled
    without an index out of range, and the cursor is on the grid
    afterwards. *)
Theorem updateGame_never_panics (msgs : list ui.Msg) :
  forall m : ui.Model,
    in_grid m ->
    exists m' : ui.Model, updateGame_all m msgs = Done m' /\ in_grid m'.
Proof.
  induction msgs as [|msg msgs IH]; intros m Hm; simpl.
  - by exists m.
  - destruct (updateGame_in_grid m msg Hm) as (out & Hrun & Hout).
    rewrite Hrun. simpl. by apply IH.
Qed.

Lemma updateGame_never_panics_witness :
  exists m' : ui.Model,
    updateGame_all readyModel
      [ui.KeyMsg "down"; ui.KeyMsg "down"; ui.KeyMsg "down"; ui.KeyMsg "l";
       ui.KeyMsg "enter"; ui.roomUpdateMsg finishedRoom; ui.KeyMsg "r"]
      = Done m' /\
    in_grid m'.
Proof.
  apply (updateGame_never_panics _ readyModel). unfold in_grid. simpl. lia.
Defined.

(** ** Polling *)

(** X12.  A poll that finds no room sends the session back to the menu:
    when [GetRoom] fails, for a missing document or one without a creator,
    the room update that [pollCmd] delivers makes the game screen clear the
    error and the room code, go to the menu, and issue no further poll.
    This is what the guest's session does once the host has left. *)
Theorem poll_of_vanished_room_returns_to_menu (st : store) (m : ui.Model)
    (code : string) :
  (forall e : error,
      GetRoom code st = Err e ->
      exists m' : ui.Model,
        ui.updateGame m (ui_loop.pollCmd code st) = Done (m', ui.nilCmd) /\
        ui.State m' = ui.StateMenu /\ ui.RoomCode m' = "" /\ ui.Err m' = None) /\
  (forall pid : string,
      exists m' : ui.Model,
        ui.updateGame m (ui_loop.pollCmd code (LeaveRoom code pid true st).2)
          = Done (m', ui.nilCmd) /\
        ui.State m' = ui.StateMenu /\ ui.RoomCode m' = "" /\ ui.Err m' = None).
Proof.
  assert (forall st0 e, GetRoom code st0 = Err e ->
            exists m' : ui.Model,
              ui.updateGame m (ui_loop.pollCmd code st0) = Done (m', ui.nilCmd) /\
              ui.State m' = ui.StateMenu /\ ui.RoomCode m' = "" /\
              ui.Err m' = None) as Hgone.
  { intros st0 e Hget. unfold ui_loop.pollCmd. rewrite Hget. simpl.
    rewrite andb_false_r. simpl. eexists. by repeat split. }
  split; [apply Hgone |].
  intros pid. apply (Hgone _ (Errorf "room does not exist")).
  unfold GetRoom, ref_Get, LeaveRoom. simpl. by rewrite lookup_delete_eq.
Qed.

Lemma poll_of_vanished_room_returns_to_menu_witness :
  exists m' : ui.Model,
    ui.updateGame readyModel (ui_loop.pollCmd "GONE" threeRooms)
      = Done (m', ui.nilCmd) /\
    ui.State m' = ui.StateMenu.
Proof.
  destruct (poll_of_vanished_room_returns_to_menu threeRooms readyModel "GONE")
    as (Hgone & _).
  destruct (Hgone (Errorf "room does not exist")) as (m' & Hrun & Hstate & _);
    [vm_compute; reflexivity |].
  exists m'. by split.
Defined.

(** X13.  A poll that finds the room replaces the session's copy of the
    room by the room read and schedules the next poll for the session's room
    code.  A session in the lobby moves to the game screen exactly when the
    room read has a guest; nothing else in the session changes. *)
Theorem poll_of_existing_room_continues (st : store) (m : ui.Model)
    (code : string) (r : Room) :
  GetRoom code st = Ok r ->
  let state' :=
    match ui.State m with
    | ui.StateLobby => if PlayerO r =? "" then ui.StateLobby else ui.StateGame
    | s => s
    end in
  ui.updateGame m (ui_loop.pollCmd code st) =
    Done (ui.set_State state' (ui.set_Game r m), ui.pollCmd (ui.RoomCode m)).
Proof.
  intros Hget state'.
  assert (PlayerX r ≠ "") as Hx.
  { unfold GetRoom in Hget.
    destruct (String.eqb_spec (raw_PlayerX (ref_Get st code)) "") as [|Hx];
      [discriminate |].
    injection Hget as <-. by rewrite sanitizeRoom_eq. }
  apply String.eqb_neq in Hx.
  unfold ui_loop.pollCmd. rewrite Hget. subst state'. simpl.
  destruct m as [sid e s popup side rc cr cc g]. simpl.
  destruct s; simpl; rewrite ?Hx; try reflexivity.
  destruct (PlayerO r =? ""); simpl; by rewrite Hx.
Qed.

Lemma poll_of_existing_room_continues_witness :
  ui.updateGame readyModel (ui_loop.pollCmd "AB3D" joinedStore) =
    Done (ui.set_State ui.StateGame
            (ui.set_Game
               (mkRoom "AB3D" emptyBoard "X" "p1" "p2" "Alice" "Bob" true ""
                  [] "playing" 0 0) readyModel),
          ui.pollCmd "AB3D").
Proof.
  apply (poll_of_existing_room_continues joinedStore readyModel "AB3D").
  vm_compute. reflexivity.
Defined.

(** ** The leave popup *)

(** X14.  Confirming the leave popup (["y"] or ["enter"]) in a room calls
    [LeaveRoom] for the session's room, as host exactly when the session's
    side is ["X"], and sends the session to the menu with the popup closed
    and the room code and error cleared, issuing no command.  For the host
    the room's document is then gone; for anyone else it is there with an
    empty [PlayerO] and the status ["waiting"]. *)
Theorem popup_confirm_leaves_room (st : store) (m : ui.Model) (key : string) :
  ui.PopupActive m = true ->
  key = "y" \/ key = "enter" ->
  ui.RoomCode m ≠ "" ->
  let st' := (LeaveRoom (ui.RoomCode m) (ui.SessionID m)
                (ui.MySide m =? "X") st).2 in
  exists m' : ui.Model,
    ui_loop.Update m (ui.KeyMsg key) st
      = Some (Done (m', ui_loop.gameCmd ui.nilCmd), st') /\
    ui.State m' = ui.StateMenu /\ ui.RoomCode m' = "" /\
    ui.PopupActive m' = false /\ ui.Err m' = None /\
    (ui.MySide m = "X" -> st' !! ui.RoomCode m = None) /\
    (ui.MySide m ≠ "X" ->
     exists doc : rawRoom,
       st' !! ui.RoomCode m = Some doc /\
       raw_PlayerO doc = "" /\ raw_Status doc = "waiting").
Proof.
  intros Hpopup Hkey Hcode st'. apply String.eqb_neq in Hcode.
  eexists. split.
  - unfold ui_loop.Update. rewrite Hpopup.
    destruct Hkey as [-> | ->]; simpl; rewrite Hcode; reflexivity.
  - repeat split.
    + intros Hside. subst st'. apply String.eqb_eq in Hside. rewrite Hside.
      simpl. apply lookup_delete_eq.
    + intros Hside. subst st'. apply String.eqb_neq in Hside. rewrite Hside.
      simpl. eexists. split; [apply lookup_insert_eq |]. by split.
Qed.

Lemma popup_confirm_leaves_room_witness :
  exists m' : ui.Model,
    ui_loop.Update popupModel (ui.KeyMsg "y") joinedStore
      = Some (Done (m', ui_loop.gameCmd ui.nilCmd),
              (LeaveRoom "AB3D" "p2" false joinedStore).2) /\
    ui.State m' = ui.StateMenu.
Proof.
  destruct (popup_confirm_leaves_room joinedStore popupModel "y")
    as (m' & Hrun & Hstate & _); [reflexivity | by left | discriminate |].
  exists m'. by split.
Defined.

(** X15.  Opening the leave popup and cancelling it does not resume
    polling.  On the lobby or game screen ["q"] or ["esc"] opens the popup;
    a room update that arrives while it is open is dropped, with no command
    in return; ["n"] or ["esc"] then closes the popup and gives back the
    session exactly as it was before.  The store is not touched and none of
    the three steps returns a poll command. *)
Theorem popup_cancel_drops_poll (st : store) (m : ui.Model)
    (key_open key_close : string) (r : Room) :
  ui.PopupActive m = false ->
  ui.State m = ui.StateLobby \/ ui.State m = ui.StateGame ->
  key_open = "q" \/ key_open = "esc" ->
  key_close = "n" \/ key_close = "esc" ->
  let m1 := ui.set_PopupActive true m in
  ui_loop.Update m (ui.KeyMsg key_open) st
    = Some (Done (m1, ui_loop.gameCmd ui.nilCmd), st) /\
  ui_loop.Update m1 (ui.roomUpdateMsg r) st
    = Some (Done (m1, ui_loop.gameCmd ui.nilCmd), st) /\
  ui_loop.Update m1 (ui.KeyMsg key_close) st
    = Some (Done (m, ui_loop.gameCmd ui.nilCmd), st).
Proof.
  intros Hpopup Hstate Hopen Hclose m1. subst m1.
  destruct m as [sid e s popup side rc cr cc g]. simpl in *. subst popup.
  split; [| split].
  - unfold ui_loop.Update. simpl.
    destruct Hopen as [-> | ->]; destruct Hstate as [-> | ->]; reflexivity.
  - reflexivity.
  - destruct Hclose as [-> | ->]; reflexivity.
Qed.

Lemma popup_cancel_drops_poll_witness :
  ui_loop.Update (ui.set_PopupActive true readyModel)
    (ui.roomUpdateMsg finishedRoom) joinedStore
    = Some (Done (ui.set_PopupActive true readyModel,
                  ui_loop.gameCmd ui.nilCmd), joinedStore) /\
  ui_loop.Update (ui.set_PopupActive true readyModel) (ui.KeyMsg "n") joinedStore
    = Some (Done (readyModel, ui_loop.gameCmd ui.nilCmd), joinedStore).
Proof.
  destruct (popup_cancel_drops_poll joinedStore readyModel "q" "n" finishedRoom)
    as (_ & Hdrop & Hclose); [reflexivity | by right | by left | by left |].
  split; [exact Hdrop | exact Hclose].
Defined.

(** * Properties of the single-file server *)

(** ** Draw and winner *)

Lemma checkDraw_range_Forall (vs : list string) :
  legacy.checkDraw_range vs = true <-> Forall (fun v => v ≠ " ") vs.
Proof.
  induction vs as [|v vs IH]; simpl; [by split |].
  rewrite Forall_cons. destruct (String.eqb_spec v " ") as [->|Hv].
  - split; [discriminate | by intros [? _]].
  - rewrite IH. tauto.
Qed.

(** [checkDraw] answers [true] exactly for a board without an empty cell. *)
Lemma checkDraw_no_empty_cell (b : vec string 9) :
  legacy.checkDraw b = true <-> forall k : fin 9, b !!! k ≠ " ".
Proof.
  unfold legacy.checkDraw. rewrite checkDraw_range_Forall.
  apply (Forall_vlookup (fun v => v ≠ " ")).
Qed.

Lemma scan_order_distinct : Forall distinct_cells scan_order.
Proof. repeat constructor; simpl; lia. Qed.

(** X16.  [checkWinner] never panics, and a winner it reports has three in
    a line: if the result is not [""], three different cells of one winning
    triple hold it.  It never reports the empty-cell value [" "], and when
    some triple is won the result is the mark of a won triple. *)
Theorem checkWinner_sound (b : vec string 9) :
  exists w : string,
    legacy.checkWinner b = Done w /\
    w ≠ " " /\
    (w ≠ "" ->
     exists t : nat * nat * nat,
       t ∈ scan_order /\ distinct_cells t /\
       cell b t.1.1 = w /\ cell b t.1.2 = w /\ cell b t.2 = w) /\
    ((exists t, t ∈ scan_order /\ triple_won b t) ->
     exists t, t ∈ scan_order /\ triple_won b t /\ cell b t.1.1 = w).
Proof.
  rewrite checkWinner_find.
  destruct (List.find (triple_wonb b) scan_order) as [t|] eqn:Hfind.
  - apply find_some in Hfind as [Hin Hwon].
    apply list_elem_of_In in Hin. apply triple_wonb_spec in Hwon.
    pose proof Hwon as (Hmark & H12 & H23).
    exists (cell b t.1.1). split; [reflexivity |]. split; [exact Hmark |].
    split.
    + intros _. exists t. split; [exact Hin |]. split.
      * pose proof scan_order_distinct as Hd. rewrite Forall_forall in Hd.
        by apply Hd.
      * split; [reflexivity |]. split; congruence.
    + intros _. by exists t.
  - exists "". split; [reflexivity |]. split; [discriminate |]. split; [done |].
    intros (t & Hin & Hwon). apply list_elem_of_In in Hin.
    apply (find_none _ _ Hfind) in Hin. apply triple_wonb_spec in Hwon.
    congruence.
Qed.

Lemma checkWinner_sound_witness :
  exists w : string,
    legacy.checkWinner columnAndDiagonal = Done w /\
    exists t : nat * nat * nat,
      t ∈ scan_order /\ triple_won columnAndDiagonal t /\
      cell columnAndDiagonal t.1.1 = w.
Proof.
  destruct (checkWinner_sound columnAndDiagonal) as (w & Hrun & _ & _ & Hsome).
  exists w. split; [exact Hrun |]. apply Hsome.
  exists (0, 4, 8). split.
  - apply list_elem_of_In. simpl. tauto.
  - repeat split; discriminate.
Defined.

(** ** Moves and joins without a transaction *)

Lemma legacy_ref_Get_insert (st : legacy_server.store) (code : string)
    (doc : legacy.RoomData) :
  legacy_server.ref_Get (<[code := doc]> st) code = doc.
Proof. unfold legacy_server.ref_Get. by rewrite lookup_insert_eq. Qed.

(** X17.  [makeMoveCmd] with an index in [0..8] never panics and checks
    nothing: it writes the caller's board with the player's mark on the
    target cell, whatever the cell held, over the stored board, and leaves
    the stored players and names alone.  The turn it writes is the other
    side's even when the game ends (["X"] after ["O"], ["O"] after anyone
    else).  The winner it writes is [checkWinner] of the new board, and the
    status is ["finished"] exactly when there is a winner or no empty cell,
    and ["playing"] otherwise.  An index outside [0..8] is a panic. *)
Theorem makeMoveCmd_effect (st : legacy_server.store) (code : string)
    (current : legacy.RoomData) (index : Z) (player : string) :
  (forall k : fin 9,
      fin9_of_Z index = Some k ->
      exists doc : legacy.RoomData,
        legacy_server.makeMoveCmd code current index player st
          = Done (legacy_server.nilMsg, <[code := doc]> st) /\
        legacy.Board doc = vinsert k player (legacy.Board current) /\
        legacy.Turn doc = (if player =? "O" then "X" else "O") /\
        legacy.checkWinner (legacy.Board doc) = Done (legacy.Winner doc) /\
        (legacy.Status doc = "finished" <->
         legacy.Winner doc ≠ "" \/ forall j : fin 9, legacy.Board doc !!! j ≠ " ") /\
        (legacy.Status doc = "finished" \/ legacy.Status doc = "playing") /\
        legacy.PlayerX doc = legacy.PlayerX (legacy_server.ref_Get st code) /\
        legacy.PlayerO doc = legacy.PlayerO (legacy_server.ref_Get st code) /\
        legacy.PlayerXName doc = legacy.PlayerXName (legacy_server.ref_Get st code) /\
        legacy.PlayerOName doc = legacy.PlayerOName (legacy_server.ref_Get st code)) /\
  ((index < 0 \/ 9 <= index)%Z ->
   legacy_server.makeMoveCmd code current index player st = Panicked).
Proof.
  split.
  - intros k Hk. unfold legacy_server.makeMoveCmd, board_set. rewrite Hk. simpl.
    set (board := vinsert k player (legacy.Board current)).
    pose proof (checkWinner_find board) as Hw.
    set (w := match List.find (triple_wonb board) scan_order with
              | Some t => cell board t.1.1
              | None => ""
              end) in Hw.
    rewrite Hw. simpl.
    eexists. split; [reflexivity |]. simpl.
    split; [reflexivity |]. split; [reflexivity |]. split; [exact Hw |].
    split; [| split; [| by repeat split]].
    + rewrite <- checkDraw_no_empty_cell.
      destruct (String.eqb_spec w "") as [->|Hne]; simpl.
      * destruct (legacy.checkDraw board); split; try tauto; try discriminate.
        intros [? | ?]; [done | discriminate].
      * split; [by left | reflexivity].
    + destruct (negb (w =? "") || legacy.checkDraw board); [by left | by right].
  - intros Hidx%fin9_of_Z_None.
    unfold legacy_server.makeMoveCmd, board_set. by rewrite Hidx.
Qed.

Lemma makeMoveCmd_effect_witness :
  (exists doc : legacy.RoomData,
      legacy_server.makeMoveCmd "AB3D" legacyFresh 4 "X" legacyStore
        = Done (legacy_server.nilMsg, <["AB3D" := doc]> legacyStore) /\
      legacy.Turn doc = "O" /\
      legacy.PlayerO doc = "p2") /\
  legacy_server.makeMoveCmd "AB3D" legacyFresh 9 "X" legacyStore = Panicked.
Proof.
  destruct (makeMoveCmd_effect legacyStore "AB3D" legacyFresh 4 "X")
    as (Hin & _).
  destruct (makeMoveCmd_effect legacyStore "AB3D" legacyFresh 9 "X")
    as (_ & Hout).
  split.
  - destruct (Hin 4%fin eq_refl)
      as (doc & Hrun & _ & Hturn & _ & _ & _ & _ & Ho & _).
    exists doc. split; [exact Hrun |]. split; [exact Hturn | exact Ho].
  - apply Hout. lia.
Defined.

(** X18.  [joinRoomCmd] reads, checks and then updates in separate store
    calls, so two joins can both succeed.  If both sessions read the room
    while its guest slot is empty, each passes the check and each is told
    it has joined, whatever the two ids are; the room ends up with the
    second writer as its guest, and the first session, told it had joined,
    is no longer in the room. *)
Theorem joinRoomCmd_race_both_join (st : legacy_server.store)
    (code p1 n1 p2 n2 : string) :
  legacy.PlayerO (legacy_server.ref_Get st code) = "" ->
  let room := legacy_server.ref_Get st code in
  let out1 := legacy_server.joinRoomCmd_after_Get code p1 n1 room st in
  let out2 := legacy_server.joinRoomCmd_after_Get code p2 n2 room out1.2 in
  out1.1 = legacy_server.roomJoinedMsg code /\
  out2.1 = legacy_server.roomJoinedMsg code /\
  legacy.PlayerO (legacy_server.ref_Get out2.2 code) = p2 /\
  legacy.PlayerOName (legacy_server.ref_Get out2.2 code) = n2 /\
  legacy.Status (legacy_server.ref_Get out2.2 code) = "playing" /\
  legacy.PlayerX (legacy_server.ref_Get out2.2 code) = legacy.PlayerX room.
Proof.
  intros Hfree room out1 out2. subst out2 out1 room.
  unfold legacy_server.joinRoomCmd_after_Get. rewrite Hfree. simpl.
  rewrite !legacy_ref_Get_insert. by repeat split.
Qed.

Lemma joinRoomCmd_race_both_join_witness :
  let st := ({[ "AB3D" := legacyFresh ]} : legacy_server.store) in
  let out1 := legacy_server.joinRoomCmd_after_Get "AB3D" "p2" "Bob" legacyFresh st in
  let out2 :=
    legacy_server.joinRoomCmd_after_Get "AB3D" "p3" "Carol" legacyFresh out1.2 in
  out1.1 = legacy_server.roomJoinedMsg "AB3D" /\
  out2.1 = legacy_server.roomJoinedMsg "AB3D" /\
  legacy.PlayerO (legacy_server.ref_Get out2.2 "AB3D") = "p3".
Proof.
  destruct (joinRoomCmd_race_both_join {[ "AB3D" := legacyFresh ]}
              "AB3D" "p2" "Bob" "p3" "Carol") as (H1 & H2 & H3 & _);
    [reflexivity |].
  split; [exact H1 |]. split; [exact H2 | exact H3].
Defined.

(** X19.  [joinRoomCmd] run on its own.  It does not ask whether the room
    exists: for a code that is not in the store it reports a join and
    creates a document without a host.  It refuses any room whose guest
    slot is taken, with "room is full" and no write, also when the guest is
    the joiner itself; so after a join by a non-empty id every further join
    fails. *)
Theorem joinRoomCmd_no_existence_check (st : legacy_server.store)
    (code pid name : string) :
  (st !! code = None ->
   (legacy_server.joinRoomCmd code pid name st).1 = legacy_server.roomJoinedMsg code /\
   legacy.PlayerX
     (legacy_server.ref_Get (legacy_server.joinRoomCmd code pid name st).2 code)
     = "") /\
  (legacy.PlayerO (legacy_server.ref_Get st code) ≠ "" ->
   legacy_server.joinRoomCmd code pid name st
     = (legacy_server.errMsg (Errorf "room is full"), st)) /\
  (legacy.PlayerO (legacy_server.ref_Get st code) = "" -> pid ≠ "" ->
   forall p n : string,
     legacy_server.joinRoomCmd code p n
       (legacy_server.joinRoomCmd code pid name st).2
     = (legacy_server.errMsg (Errorf "room is full"),
        (legacy_server.joinRoomCmd code pid name st).2)).
Proof.
  unfold legacy_server.joinRoomCmd, legacy_server.joinRoomCmd_after_Get.
  split; [| split].
  - intros Hst.
    assert (legacy_server.ref_Get st code = legacy_server.zeroRoomData) as ->
      by (unfold legacy_server.ref_Get; by rewrite Hst).
    simpl. by rewrite legacy_ref_Get_insert.
  - intros Ho. apply String.eqb_neq in Ho. by rewrite Ho.
  - intros Ho Hpid p n. rewrite Ho. simpl.
    rewrite legacy_ref_Get_insert. simpl.
    apply String.eqb_neq in Hpid. by rewrite Hpid.
Qed.

Lemma joinRoomCmd_no_existence_check_witness :
  (legacy_server.joinRoomCmd "GONE" "p2" "Bob" legacyStore).1
    = legacy_server.roomJoinedMsg "GONE" /\
  legacy_server.joinRoomCmd "AB3D" "p2" "Bob" legacyStore
    = (legacy_server.errMsg (Errorf "room is full"), legacyStore).
Proof.
  destruct (joinRoomCmd_no_existence_check legacyStore "GONE" "p2" "Bob")
    as (Hmissing & _).
  destruct (joinRoomCmd_no_existence_check legacyStore "AB3D" "p2" "Bob")
    as (_ & Hfull & _).
  split.
  - apply Hmissing. vm_compute. reflexivity.
  - apply Hfull. discriminate.
Defined.

(** ** The game screen of the single-file server *)




(** X21.  A rematch, end to end.  When the host confirms the rematch menu
    in a finished game, the session is unchanged and the command that runs
    resets the stored room: empty board, no winner, status ["playing"],
    players and names kept.  With the first menu entry the new turn is
    ["O"] if the winner in the host session's copy of the room is ["O"] and
    ["X"] otherwise; with the second it is ["O"] or ["X"] by the number
    drawn. *)
Theorem host_rematch_resets_room (st : legacy_server.store)
    (m : legacy_server.model) (key : string) (rnd : Z) :
  legacy.Status (legacy_server.game m) = "finished" ->
  legacy_server.mySide m = "X" ->
  key = "enter" \/ key = " " ->
  exists (c : legacy_server.Cmd) (st' : legacy_server.store),
    legacy_server.updateGame m (legacy_server.KeyMsg key) = Done (m, c) /\
    legacy_server.runCmd c rnd st = Done st' /\
    let old := legacy_server.ref_Get st (legacy_server.roomCode m) in
    let doc := legacy_server.ref_Get st' (legacy_server.roomCode m) in
    legacy.Board doc = emptyBoard /\ legacy.Winner doc = "" /\
    legacy.Status doc = "playing" /\
    legacy.PlayerX doc = legacy.PlayerX old /\
    legacy.PlayerO doc = legacy.PlayerO old /\
    legacy.PlayerXName doc = legacy.PlayerXName old /\
    legacy.PlayerOName doc = legacy.PlayerOName old /\
    (legacy_server.rematchMenu m ≠ 1%Z ->
     legacy.Turn doc =
       if legacy.Winner (legacy_server.game m) =? "O" then "O" else "X") /\
    (legacy_server.rematchMenu m = 1%Z ->
     legacy.Turn doc = if (rnd =? 0)%Z then "O" else "X").
Proof.
  intros Hfin Hside Hkey.
  exists (legacy_server.rematch (legacy_server.roomCode m)
            (legacy.rematch_rule (legacy_server.rematchMenu m))
            (legacy.Winner (legacy_server.game m))).
  eexists. split; [| split; [reflexivity |]].
  - unfold legacy_server.updateGame. rewrite Hfin, Hside.
    destruct Hkey as [-> | ->]; reflexivity.
  - unfold legacy_server.triggerRematchCmd. simpl.
    rewrite legacy_ref_Get_insert. simpl. repeat split.
    + intros Hmenu. unfold legacy.rematch_rule.
      apply Z.eqb_neq in Hmenu. by rewrite Hmenu.
    + intros ->. reflexivity.
Qed.

Lemma host_rematch_resets_room_witness :
  exists (c : legacy_server.Cmd) (st' : legacy_server.store),
    legacy_server.updateGame legacyHost (legacy_server.KeyMsg "enter")
      = Done (legacyHost, c) /\
    legacy_server.runCmd c 1 legacyStore = Done st' /\
    legacy.Turn (legacy_server.ref_Get st' "AB3D") = "O".
Proof.
  destruct (host_rematch_resets_room legacyStore legacyHost "enter" 1)
    as (c & st' & Hkey & Hrun & _ & _ & _ & _ & _ & _ & _ & Hturn & _);
    [reflexivity | reflexivity | by left |].
  exists c, st'. split; [exact Hkey |]. split; [exact Hrun |].
  apply Hturn. discriminate.
Defined.

(** X22.  After a rematch, the next poll hands every session the reset
    room and schedules a further poll.  A session whose copy of the room
    had a winner gets its cursor back on the centre cell and its error
    cleared; a session whose copy had none, as after a drawn game, keeps
    its cursor and its error. *)
Theorem rematch_poll_resets_cursor (st : legacy_server.store)
    (m : legacy_server.model) (code rule prevWinner : string) (rnd : Z) :
  let st' := (legacy_server.triggerRematchCmd code rule prevWinner rnd st).2 in
  exists m' : legacy_server.model,
    legacy_server.updateGame m (legacy_server.pollGameCmd code st')
      = Done (m', legacy_server.poll (legacy_server.roomCode m)) /\
    legacy.Board (legacy_server.game m') = emptyBoard /\
    legacy.Winner (legacy_server.game m') = "" /\
    legacy.Status (legacy_server.game m') = "playing" /\
    (legacy.Winner (legacy_server.game m) ≠ "" ->
     legacy_server.cursorR m' = 1%Z /\ legacy_server.cursorC m' = 1%Z /\
     legacy_server.err m' = None) /\
    (legacy.Winner (legacy_server.game m) = "" ->
     legacy_server.cursorR m' = legacy_server.cursorR m /\
     legacy_server.cursorC m' = legacy_server.cursorC m /\
     legacy_server.err m' = legacy_server.err m).
Proof.
  intros st'. subst st'.
  unfold legacy_server.pollGameCmd, legacy_server.triggerRematchCmd. simpl.
  rewrite legacy_ref_Get_insert.
  destruct m as [s e cr cc sid side rc q menu g]. simpl.
  destruct (legacy_server.is_stateLobby s);
    destruct (String.eqb_spec (legacy.Winner g) "") as [Hw|Hw]; simpl;
    (eexists; split; [reflexivity |]); simpl; by repeat split.
Qed.

Lemma rematch_poll_resets_cursor_witness :
  exists m' : legacy_server.model,
    legacy_server.updateGame legacyHost
      (legacy_server.pollGameCmd "AB3D"
         (legacy_server.triggerRematchCmd "AB3D" "winner" "O" 1 legacyStore).2)
      = Done (m', legacy_server.poll "AB3D") /\
    legacy_server.cursorR m' = 1%Z /\ legacy_server.cursorC m' = 1%Z /\
    legacy_server.err m' = None.
Proof.
  destruct (rematch_poll_resets_cursor legacyStore legacyHost "AB3D" "winner"
              "O" 1) as (m' & Hrun & _ & _ & _ & Hreset & _).
  exists m'. split; [exact Hrun |]. apply Hreset. discriminate.
Defined.

Lemma legacy_updateGame_in_grid (m : legacy_server.model) (msg : legacy_server.Msg) :
  legacy_in_grid m ->
  exists out, legacy_server.updateGame m msg = Done out /\ legacy_in_grid out.1.
Proof.
  intros [HR HC]. unfold legacy_server.updateGame.
  destruct msg as [code | code | e | r | key |];
    try (eexists; split; [reflexivity | by split]).
  - eexists. split; [reflexivity |]. unfold legacy_in_grid.
    repeat (destruct (_ && _); simpl); lia.
  - destruct (board_get_in_grid (legacy.Board (legacy_server.game m))
                (legacy_server.cursorR m) (legacy_server.cursorC m) HR HC)
      as (k & _ & Hget).
    rewrite Hget. cbn [mbind run_bind]. unfold legacy_in_grid.
    repeat match goal with
           | |- context [if ?b then _ else _] => destruct b eqn:?
           end;
      (eexists; split; [reflexivity |]); simpl; lia.
Qed.

(** X23.  The game screen of the single-file server keeps the cursor on the
    3x3 grid and never panics: from a session whose cursor is on the grid,
    every sequence of messages is handled without an index out of range,
    and the cursor is on the grid afterwards. *)
Theorem legacy_updateGame_never_panics (msgs : list legacy_server.Msg) :
  forall m : legacy_server.model,
    legacy_in_grid m ->
    exists m' : legacy_server.model,
      legacy_updateGame_all m msgs = Done m' /\ legacy_in_grid m'.
Proof.
  induction msgs as [|msg msgs IH]; intros m Hm; simpl.
  - by exists m.
  - destruct (legacy_updateGame_in_grid m msg Hm) as (out & Hrun & Hout).
    rewrite Hrun. simpl. by apply IH.
Qed.

Lemma legacy_updateGame_never_panics_witness :
  exists m' : legacy_server.model,
    legacy_updateGame_all legacyHost
      [legacy_server.KeyMsg "l"; legacy_server.dbUpdateMsg legacyFresh;
       legacy_server.KeyMsg "j"; legacy_server.KeyMsg "j";
       legacy_server.KeyMsg "j"; legacy_server.KeyMsg "enter"]
      = Done m' /\
    legacy_in_grid m'.
Proof.
  apply (legacy_updateGame_never_panics _ legacyHost).
  unfold legacy_in_grid. simpl. lia.
Defined.

(** ** Room codes *)

Lemma chars_at_in_range (d : Z) :
  (0 <= d < 32)%Z ->
  exists c : ascii,
    legacy_server.chars_at d = Done c /\
    c ∈ list_ascii_of_string legacy_server.chars /\
    ~ ambiguous c /\
    String.index 0 (String c EmptyString) legacy_server.chars = Some (Z.to_nat d).
Proof.
  intros Hd. unfold legacy_server.chars_at.
  destruct (Z.ltb_spec d 0) as [|_]; [lia |].
  assert (Z.to_nat d < 32) as Hn by lia.
  destruct (Z.to_nat d) as [|n] eqn:Hnat;
    [| do 31 (destruct n as [|n];
              [eexists; split; [reflexivity |]; split;
               [apply list_elem_of_In; simpl; tauto |];
               split; [intros [H|[H|[H|H]]]; discriminate | reflexivity] |]);
       lia].
  eexists. split; [reflexivity |]. split; [apply list_elem_of_In; simpl; tauto |].
  split; [intros [H|[H|[H|H]]]; discriminate | reflexivity].
Qed.

Lemma chars_at_inj (d d' : Z) (c : ascii) :
  (0 <= d < 32)%Z -> (0 <= d' < 32)%Z ->
  legacy_server.chars_at d = Done c -> legacy_server.chars_at d' = Done c ->
  d = d'.
Proof.
  intros Hd Hd' Hc Hc'.
  destruct (chars_at_in_range d Hd) as (c1 & H1 & _ & _ & Hi1).
  destruct (chars_at_in_range d' Hd') as (c2 & H2 & _ & _ & Hi2).
  rewrite Hc in H1. rewrite Hc' in H2.
  injection H1 as <-. injection H2 as <-.
  rewrite Hi1 in Hi2. injection Hi2 as Heq. lia.
Qed.

(** X24.  [generateRoomCode] (and [generateCode], the same function in the
    package [ui]), for the four numbers that [rand.Intn(32)] can return,
    does not panic and gives a code of four characters, each one from the
    32-character alphabet and none of them one of the easily confused
    [I], [O], [0], [1].  Different draws give different codes, so all 32^4
    codes can come out. *)
Theorem generateRoomCode_alphabet (d0 d1 d2 d3 : Z) :
  (0 <= d0 < 32)%Z -> (0 <= d1 < 32)%Z -> (0 <= d2 < 32)%Z -> (0 <= d3 < 32)%Z ->
  exists code : string,
    legacy_server.generateRoomCode (d0, d1, d2, d3) = Done code /\
    String.length code = 4 /\
    Forall (fun c => c ∈ list_ascii_of_string legacy_server.chars /\ ~ ambiguous c)
      (list_ascii_of_string code) /\
    forall e0 e1 e2 e3 : Z,
      (0 <= e0 < 32)%Z -> (0 <= e1 < 32)%Z -> (0 <= e2 < 32)%Z ->
      (0 <= e3 < 32)%Z ->
      legacy_server.generateRoomCode (e0, e1, e2, e3) = Done code ->
      (e0, e1, e2, e3) = (d0, d1, d2, d3).
Proof.
  intros H0 H1 H2 H3.
  destruct (chars_at_in_range d0 H0) as (c0 & Hc0 & Hin0 & Hamb0 & _).
  destruct (chars_at_in_range d1 H1) as (c1 & Hc1 & Hin1 & Hamb1 & _).
  destruct (chars_at_in_range d2 H2) as (c2 & Hc2 & Hin2 & Hamb2 & _).
  destruct (chars_at_in_range d3 H3) as (c3 & Hc3 & Hin3 & Hamb3 & _).
  exists (String c0 (String c1 (String c2 (String c3 EmptyString)))).
  split; [| split; [reflexivity | split]].
  - unfold legacy_server.generateRoomCode. by rewrite Hc0, Hc1, Hc2, Hc3.
  - change (list_ascii_of_string
              (String c0 (String c1 (String c2 (String c3 EmptyString)))))
      with [c0; c1; c2; c3].
    apply Forall_cons_2; [exact (conj Hin0 Hamb0) |].
    apply Forall_cons_2; [exact (conj Hin1 Hamb1) |].
    apply Forall_cons_2; [exact (conj Hin2 Hamb2) |].
    apply Forall_cons_2; [exact (conj Hin3 Hamb3) |].
    apply Forall_nil_2.
  - intros e0 e1 e2 e3 He0 He1 He2 He3.
    destruct (chars_at_in_range e0 He0) as (a0 & Ha0 & _).
    destruct (chars_at_in_range e1 He1) as (a1 & Ha1 & _).
    destruct (chars_at_in_range e2 He2) as (a2 & Ha2 & _).
    destruct (chars_at_in_range e3 He3) as (a3 & Ha3 & _).
    unfold legacy_server.generateRoomCode. rewrite Ha0, Ha1, Ha2, Ha3. simpl.
    intros [= -> -> -> ->].
    by rewrite (chars_at_inj e0 d0 c0), (chars_at_inj e1 d1 c1),
      (chars_at_inj e2 d2 c2), (chars_at_inj e3 d3 c3).
Qed.

Lemma generateRoomCode_alphabet_witness :
  exists code : string,
    legacy_server.generateRoomCode (0, 1, 26, 3)%Z = Done code /\
    String.length code = 4.
Proof.
  destruct (generateRoomCode_alphabet 0 1 26 3) as (code & Hrun & Hlen & _);
    [lia .. |].
  exists code. by split.
Defined.

Example generateRoomCode_AB4D :
  legacy_server.generateRoomCode (0, 1, 26, 3)%Z = Done "AB4D".
Proof. reflexivity. Qed.

(** * Properties of the public rooms screen *)

Section public_list_properties.

Variable ToUpper : string -> string.
Variable Contains : string -> string -> bool.
Variable SearchInput_Update : string -> public_list.Msg -> string.

Abbreviation shown := (public_list.shown ToUpper Contains).
Abbreviation getSortedList := (public_list.getSortedList ToUpper Contains).
Abbreviation renderPublicList_items :=
  (public_list.renderPublicList_items ToUpper Contains).
Abbreviation updatePublicList :=
  (public_list.updatePublicList ToUpper Contains SearchInput_Update).

Lemma split_rooms_filter (filter : string) (rooms : list Room) :
  forall open full : list Room,
    public_list.split_rooms ToUpper Contains filter rooms open full =
      ((open ++ List.filter (fun r => shown filter r && (PlayerO r =? "")) rooms)%list,
       (full ++ List.filter (fun r => shown filter r && negb (PlayerO r =? ""))
                  rooms)%list).
Proof.
  induction rooms as [|r rooms IH]; intros open full; simpl.
  - by rewrite !app_nil_r.
  - destruct (shown filter r); simpl; [| apply IH].
    destruct (PlayerO r =? ""); simpl; rewrite IH; by rewrite <- app_assoc.
Qed.

Lemma StronglySorted_List_filter {A : Type} (R : A -> A -> Prop) (p : A -> bool)
    (l : list A) :
  StronglySorted R l -> StronglySorted R (List.filter p l).
Proof.
  induction 1 as [|x l Hl IH Hx]; simpl; [constructor |].
  destruct (p x); [| exact IH]. constructor; [exact IH |].
  rewrite Forall_forall in *. intros y Hy. apply Hx.
  apply list_elem_of_In in Hy. apply filter_In in Hy as [Hy _].
  by apply list_elem_of_In.
Qed.

(** X25.  The list the public rooms screen works on has the open rooms
    first and the full rooms after them: it is the shown rooms with an
    empty [PlayerO], followed by the shown rooms with a guest, each group in
    the order of the fetched list.  A room is on it exactly if it was
    fetched and passes the search filter; and when the fetched list is in
    ascending order of the codes, as [GetPublicRooms] returns it, each of
    the two groups is. *)
Theorem getSortedList_open_rooms_first (m : public_list.Model) :
  exists open full : list Room,
    getSortedList m = (open ++ full)%list /\
    Forall (fun r => PlayerO r = "") open /\
    Forall (fun r => PlayerO r ≠ "") full /\
    (forall r : Room,
        r ∈ getSortedList m <->
        r ∈ public_list.PublicRooms m /\
        shown (ToUpper (public_list.SearchValue m)) r = true) /\
    (StronglySorted code_lt (public_list.PublicRooms m) ->
     StronglySorted code_lt open /\ StronglySorted code_lt full).
Proof using ToUpper Contains.
  set (filter := ToUpper (public_list.SearchValue m)).
  set (rooms := public_list.PublicRooms m).
  exists (List.filter (fun r => shown filter r && (PlayerO r =? "")) rooms),
         (List.filter (fun r => shown filter r && negb (PlayerO r =? "")) rooms).
  assert (getSortedList m =
            (List.filter (fun r => shown filter r && (PlayerO r =? "")) rooms
             ++ List.filter (fun r => shown filter r && negb (PlayerO r =? ""))
                  rooms)%list) as Heq.
  { unfold public_list.getSortedList. fold filter rooms.
    by rewrite split_rooms_filter. }
  split; [exact Heq |]. split; [| split; [| split]].
  - apply Forall_forall. intros r Hr. apply list_elem_of_In in Hr.
    apply filter_In in Hr as [_ Hr]. apply andb_true_iff in Hr as [_ Hr].
    by apply String.eqb_eq.
  - apply Forall_forall. intros r Hr. apply list_elem_of_In in Hr.
    apply filter_In in Hr as [_ Hr]. apply andb_true_iff in Hr as [_ Hr].
    apply negb_true_iff in Hr. by apply String.eqb_neq.
  - intros r. rewrite Heq, elem_of_app, !list_elem_of_In, !filter_In.
    destruct (shown filter r); destruct (PlayerO r =? ""); simpl;
      (split;
       [intros [[? ?]|[? ?]]; try discriminate; by split
       | intros [? ?]; try discriminate; first [by left | by right]]).
  - intros Hsorted. split; by apply StronglySorted_List_filter.
Qed.

Lemma fst_imap_flag {A : Type} (flag : nat -> bool) (l : list A) :
  (imap (fun i r => (r, flag i)) l).*1 = l.
Proof.
  apply list_eq. intros i. rewrite list_lookup_fmap, list_lookup_imap.
  by destruct (l !! i).
Qed.

(** X26.  The room drawn as selected is the room the keys act on: the
    rooms [renderPublicList] draws, in display order, are the list of
    [getSortedList], and the item at position [i] is drawn as selected
    exactly when [i] is [ListSelectedRow]. *)
Theorem rendered_selection_is_acted_on (m : public_list.Model) :
  (renderPublicList_items m).*1 = getSortedList m /\
  forall (i : nat) (r : Room) (isSelected : bool),
    renderPublicList_items m !! i = Some (r, isSelected) ->
    getSortedList m !! i = Some r /\
    (isSelected = true <-> Z.of_nat i = public_list.ListSelectedRow m).
Proof.
  unfold public_list.renderPublicList_items, public_list.getSortedList.
  rewrite split_rooms_filter. simpl.
  set (open := List.filter _ _). set (full := List.filter _ _).
  split.
  - by rewrite fmap_app, !fst_imap_flag.
  - intros i r b Hi.
    destruct (decide (i < length open)) as [Hlt|Hge].
    + rewrite lookup_app_l in Hi by (by rewrite length_imap).
      rewrite lookup_app_l by done.
      rewrite list_lookup_imap in Hi.
      destruct (open !! i) as [r'|]; simpl in Hi; [| discriminate].
      injection Hi as <- <-. split; [reflexivity |]. apply Z.eqb_eq.
    + rewrite lookup_app_r in Hi by (rewrite length_imap; lia).
      rewrite lookup_app_r by lia.
      rewrite length_imap, list_lookup_imap in Hi.
      destruct (full !! (i - length open)) as [r'|]; simpl in Hi;
        [| discriminate].
      injection Hi as <- <-. split; [reflexivity |].
      rewrite Z.eqb_eq. lia.
Qed.

Lemma JoinRoom_error_keeps_store (st st' : store) (code pid name : string)
    (e : error) :
  JoinRoom code pid name st = (Some e, st') -> st' = st.
Proof.
  unfold JoinRoom, Transaction.
  destruct (JoinRoom_fn pid name (ref_Get st code)); intros [= ]; by subst.
Qed.

(** X27.  On the public rooms screen, with a selected row that is not
    negative, ["enter"] never panics and joins open rooms only.  Either the
    selected room of the list has an empty [PlayerO], the join transaction
    succeeded, and the session enters the game as ["O"] with the room's
    code and a poll for it; or the session stays on its screen with its
    room code and side as they were, and the store is unchanged.  In the
    latter case, if the selected room had an empty [PlayerO] in the list,
    the error of the failed join (such as "room is full" when the list was
    stale) is the session's error. *)
Theorem enter_joins_open_rooms_only (m : public_list.Model) (st : store) :
  (0 <= public_list.ListSelectedRow m)%Z ->
  exists (m' : public_list.Model) (c : public_list.Cmd) (st' : store),
    updatePublicList m (public_list.KeyMsg "enter") st = Done (m', c, st') /\
    ((exists sel : Room,
         getSortedList m !! Z.to_nat (public_list.ListSelectedRow m) = Some sel /\
         PlayerO sel = "" /\
         JoinRoom (Code sel) (public_list.SessionID m) (public_list.MyName m) st
           = (None, st') /\
         c = public_list.pollCmd (Code sel) /\
         public_list.State m' = ui.StateGame /\
         public_list.RoomCode m' = Code sel /\
         public_list.MySide m' = "O") \/
     (st' = st /\ c = public_list.inputCmd /\
      public_list.State m' = public_list.State m /\
      public_list.RoomCode m' = public_list.RoomCode m /\
      public_list.MySide m' = public_list.MySide m /\
      forall sel : Room,
        getSortedList m !! Z.to_nat (public_list.ListSelectedRow m) = Some sel ->
        PlayerO sel = "" ->
        public_list.Err m' =
          (JoinRoom (Code sel) (public_list.SessionID m) (public_list.MyName m)
             st).1 /\
        public_list.Err m' ≠ None)).
Proof.
  intros Hrow. unfold public_list.updatePublicList.
  change ("enter" =? "esc") with false.
  change (ui.key_in "enter" ["up"; "shift+tab"]) with false.
  change (ui.key_in "enter" ["down"; "tab"]) with false.
  change ("enter" =? "enter") with true. cbv iota.
  set (list := getSortedList m).
  set (row := public_list.ListSelectedRow m) in *.
  destruct (list !! Z.to_nat row) as [sel|] eqn:Hsel.
  - assert (Z.to_nat row < length list) as Hlt by (by eapply lookup_lt_Some).
    assert ((Z.of_nat (length list) >? 0)%Z && (row <? Z.of_nat (length list))%Z
            = true) as ->.
    { apply andb_true_iff. split; [apply Z.gtb_lt | apply Z.ltb_lt]; lia. }
    assert (public_list.slice_get list row = Done sel) as ->.
    { unfold public_list.slice_get.
      destruct (Z.ltb_spec row 0); [lia |]. by rewrite Hsel. }
    cbn [mbind run_bind].
    destruct (String.eqb_spec (PlayerO sel) "") as [Hopen|Hfull].
    + destruct (JoinRoom (Code sel) (public_list.SessionID m)
                  (public_list.MyName m) st) as [[e|] st'] eqn:Hjoin.
      * apply JoinRoom_error_keeps_store in Hjoin as Hst. subst st'.
        do 3 eexists. split; [reflexivity |]. right.
        do 5 (split; [reflexivity |]).
        intros sel0 [= <-] _. rewrite Hjoin. by split.
      * do 3 eexists. split; [reflexivity |]. left.
        exists sel. by repeat split.
    + do 3 eexists. split; [reflexivity |]. right.
      do 5 (split; [reflexivity |]).
      intros sel0 [= <-] Hopen. contradiction.
  - apply lookup_ge_None in Hsel.
    assert ((Z.of_nat (length list) >? 0)%Z && (row <? Z.of_nat (length list))%Z
            = false) as ->.
    { apply andb_false_iff. right. apply Z.ltb_ge. lia. }
    do 3 eexists. split; [reflexivity |]. right.
    do 5 (split; [reflexivity |]).
    intros sel0 [=].
Qed.

End public_list_properties.

Lemma getSortedList_open_rooms_first_witness :
  exists open full : list Room,
    public_list.getSortedList (fun s => s) (fun _ _ => false) listModel
      = (open ++ full)%list /\
    StronglySorted code_lt open /\ StronglySorted code_lt full.
Proof.
  destruct (getSortedList_open_rooms_first (fun s => s) (fun _ _ => false)
              listModel) as (open & full & Heq & _ & _ & _ & Hsorted).
  exists open, full. split; [exact Heq |].
  apply Hsorted. apply GetPublicRooms_sorted.
Defined.

Example getSortedList_listModel :
  Code <$> public_list.getSortedList (fun s => s) (fun _ _ => false) listModel
    = ["AB3D"; "K7QP"; "ZZ99"] /\
  PlayerO <$> public_list.getSortedList (fun s => s) (fun _ _ => false) listModel
    = [""; ""; "p2"].
Proof. split; vm_compute; reflexivity. Qed.

Lemma rendered_selection_is_acted_on_witness :
  exists r : Room,
    public_list.renderPublicList_items (fun s => s) (fun _ _ => false) listModel
      !! 0 = Some (r, true) /\
    public_list.getSortedList (fun s => s) (fun _ _ => false) listModel !! 0
      = Some r.
Proof.
  destruct (rendered_selection_is_acted_on (fun s => s) (fun _ _ => false)
              listModel) as (_ & Hitem).
  eexists. split; [vm_compute; reflexivity |].
  eapply (Hitem 0 _ true). vm_compute. reflexivity.
Defined.

Lemma enter_joins_open_rooms_only_witness :
  exists (m' : public_list.Model) (c : public_list.Cmd) (st' : store),
    public_list.updatePublicList (fun s => s) (fun _ _ => false)
      (fun s _ => s) listModel (public_list.KeyMsg "enter") threeRooms
      = Done (m', c, st').
Proof.
  destruct (enter_joins_open_rooms_only (fun s => s) (fun _ _ => false)
              (fun s _ => s) listModel threeRooms)
    as (m' & c & st' & Hrun & _); [simpl; lia |].
  by exists m', c, st'.
Defined.

Example enter_on_listModel :
  exists st' : store,
    public_list.updatePublicList (fun s => s) (fun _ _ => false)
      (fun s _ => s) listModel (public_list.KeyMsg "enter") threeRooms
      = Done (public_list.mkModel "p3" None ui.StateGame ""
                (GetPublicRooms threeRooms) 0 "Carol" "O" "AB3D",
              public_list.pollCmd "AB3D", st') /\
    GetRoom "AB3D" st' =
      Ok (mkRoom "AB3D" emptyBoard "X" "p1" "p3" "Alice" "Carol" true "" []
            "playing" 0 0).
Proof. eexists. split; vm_compute; reflexivity. Qed.
